(** * openGB server: message bus and printer-state cache

    A shallow embedding of [opengb/server.py]: the JSON-RPC command
    [MessageHandler.set_temp], the websocket registry ([CLIENTS],
    [WebSocketHandler.on_close], [broadcast_message]), the reducer
    [process_event] that folds printer events into the [PRINTER] cache and the
    periodic callback [process_printer_events].

    Python objects that travel through the server are JSON documents; they are
    embedded as the inductive type [Py.pyval].  Module-level mutable state
    (the two queues, the client list, the cache, the logger) is threaded
    explicitly through a state-and-exception monad: a raised exception keeps
    every mutation made before it, as in Python. *)

From Stdlib Require Import List ZArith NArith Bool String Ascii Lia.
From Stdlib Require Import DecimalString.
Import ListNotations.

Local Open Scope Z_scope.
Set Warnings "-register-all".

(* ================================================================== *)
(** ** Python values *)

Module Py.

(** A Python [str] is a sequence of Unicode code points. *)
Definition pystr := list N.

(** The [str] denoted by an ASCII literal of the source. *)
Definition str (s : string) : pystr :=
  List.map N_of_ascii (list_ascii_of_string s).

Fixpoint pystr_eqb (a b : pystr) : bool :=
  match a, b with
  | [], [] => true
  | x :: a', y :: b' => N.eqb x y && pystr_eqb a' b'
  | _, _ => false
  end.

(** The exceptions the server can meet. *)
Inductive exn : Type :=
| KeyError
| TypeError
| ValueError
| WebSocketClosedError.

Definition exn_eqb (a b : exn) : bool :=
  match a, b with
  | KeyError, KeyError | TypeError, TypeError
  | ValueError, ValueError | WebSocketClosedError, WebSocketClosedError => true
  | _, _ => false
  end.

(** Outcome of a Python expression or statement. *)
Inductive result (A : Type) : Type :=
| Ok (a : A)
| Raise (e : exn).
Arguments Ok {A} a.
Arguments Raise {A} e.

(** The objects [json.loads] builds and [json.dumps] accepts.  A [dict] keeps
    its items in insertion order, keys unique.  A [float] is carried as the
    decimal literal it was read from: the server never computes with one. *)
Inductive pyval : Type :=
| PNone
| PBool (b : bool)
| PInt (z : Z)
| PFloat (literal : pystr)
| PStr (s : pystr)
| PList (items : list pyval)
| PDict (items : list (pystr * pyval)).

(** [d.get(k)] on the items of a dict. *)
Fixpoint dict_get (k : pystr) (d : list (pystr * pyval)) : option pyval :=
  match d with
  | [] => None
  | (k', v) :: d' => if pystr_eqb k k' then Some v else dict_get k d'
  end.

(** [d[k] = v] on the items of a dict: an existing key keeps its place. *)
Fixpoint dict_set (k : pystr) (v : pyval) (d : list (pystr * pyval))
  : list (pystr * pyval) :=
  match d with
  | [] => [(k, v)]
  | (k', v') :: d' =>
      if pystr_eqb k k' then (k', v) :: d' else (k', v') :: dict_set k v d'
  end.

(** [o[k]] for a [str] key [k]: a dict raises [KeyError] on a missing key; a
    list or a str wants integer indices and the other objects are not
    subscriptable, all of which is a [TypeError]. *)
Definition getitem (o : pyval) (k : pystr) : result pyval :=
  match o with
  | PDict d =>
      match dict_get k d with
      | Some v => Ok v
      | None => Raise KeyError
      end
  | _ => Raise TypeError
  end.

(** [o == s] for a [str] literal [s]. *)
Definition eq_str (o : pyval) (s : pystr) : bool :=
  match o with
  | PStr t => pystr_eqb t s
  | _ => false
  end.

(** [isinstance(o, int)], with the integer: [bool] is a subclass of [int]. *)
Definition as_int (o : pyval) : option Z :=
  match o with
  | PInt z => Some z
  | PBool b => Some (if b then 1 else 0)
  | _ => None
  end.

End Py.

(* ================================================================== *)
(** ** The [json] module

    [loads] and [dumps] of the Python standard library with their default
    options, on [Py.pyval].  [loads] is the recursive descent of
    [json.decoder] and [json.scanner]; [dumps] writes what [json.encoder]
    writes with [ensure_ascii] and the default separators (comma and space,
    colon and space), the items of a dict in insertion order.

    A number with a fraction or an exponent is read as a [float] and kept as
    its literal; [dumps] writes the literal back, where CPython writes the
    shortest literal of the same double.  The server passes numbers on and
    never looks into one. *)

Module Json.
Import Py.
Local Open Scope N_scope.

Definition is_ws (c : N) : bool :=
  (c =? 32) || (c =? 9) || (c =? 10) || (c =? 13).

Fixpoint skip_ws (s : pystr) : pystr :=
  match s with
  | c :: r => if is_ws c then skip_ws r else s
  | [] => []
  end.

Definition is_digit (c : N) : bool := (48 <=? c) && (c <=? 57).

Definition hex_val (c : N) : option N :=
  if is_digit c then Some (c - 48)
  else if (97 <=? c) && (c <=? 102) then Some (c - 87)
  else if (65 <=? c) && (c <=? 70) then Some (c - 55)
  else None.

(** The four hexadecimal digits of a unicode escape. *)
Definition hex4 (s : pystr) : option (N * pystr) :=
  match s with
  | a :: b :: c :: d :: r =>
      match hex_val a, hex_val b, hex_val c, hex_val d with
      | Some a, Some b, Some c, Some d =>
          Some (((a * 16 + b) * 16 + c) * 16 + d, r)
      | _, _, _, _ => None
      end
  | _ => None
  end.

Definition is_high_surrogate (u : N) : bool := (55296 <=? u) && (u <=? 56319).
Definition is_low_surrogate (u : N) : bool := (56320 <=? u) && (u <=? 57343).

(** The character a one-letter escape stands for. *)
Definition backslash (e : N) : option N :=
  if e =? 34 then Some 34        (* quotation mark *)
  else if e =? 92 then Some 92   (* reverse solidus *)
  else if e =? 47 then Some 47   (* solidus *)
  else if e =? 98 then Some 8    (* b: backspace *)
  else if e =? 102 then Some 12  (* f: form feed *)
  else if e =? 110 then Some 10  (* n: line feed *)
  else if e =? 114 then Some 13  (* r: carriage return *)
  else if e =? 116 then Some 9   (* t: tab *)
  else None.

(** [scanstring], strict: the text after the opening quote, up to and
    including the closing one.  [acc] holds the characters read so far, last
    one first. *)
Fixpoint scanstring (fuel : nat) (s : pystr) (acc : pystr)
  : option (pystr * pystr) :=
  match fuel with
  | O => None
  | S fuel' =>
      match s with
      | [] => None
      | c :: r =>
          if c =? 34 then Some (rev acc, r)
          else if c <? 32 then None
          else if c =? 92 then
            match r with
            | [] => None
            | e :: r1 =>
                if e =? 117 then
                  match hex4 r1 with
                  | None => None
                  | Some (u, r2) =>
                      match r2 with
                      | b :: u' :: r3 =>
                          if is_high_surrogate u && (b =? 92) && (u' =? 117)
                          then
                            match hex4 r3 with
                            | None => None
                            | Some (u2, r4) =>
                                if is_low_surrogate u2
                                then scanstring fuel' r4
                                       (65536 + ((u - 55296) * 1024
                                                 + (u2 - 56320)) :: acc)
                                else scanstring fuel' r2 (u :: acc)
                            end
                          else scanstring fuel' r2 (u :: acc)
                      | _ => scanstring fuel' r2 (u :: acc)
                      end
                  end
                else
                  match backslash e with
                  | Some x => scanstring fuel' r1 (x :: acc)
                  | None => None
                  end
            end
          else scanstring fuel' r (c :: acc)
      end
  end.

Fixpoint take_digits (s : pystr) : pystr * pystr :=
  match s with
  | c :: r =>
      if is_digit c
      then let (ds, rest) := take_digits r in (c :: ds, rest)
      else ([], s)
  | [] => ([], [])
  end.

Definition digits_value (ds : pystr) : Z :=
  fold_left (fun acc d => (acc * 10 + Z.of_N (d - 48))%Z) ds 0%Z.

Definition nonempty (s : pystr) : bool :=
  match s with
  | [] => false
  | _ :: _ => true
  end.

(** [NUMBER_RE]: an optional minus sign, then 0 or a digit from 1 to 9
    followed by digits; an optional fraction, a dot and at least one digit;
    an optional exponent, e or E, an optional sign and at least one digit.
    Without a fraction and an exponent the number is an [int], else a
    [float]. *)
Definition scan_number (s : pystr) : option (pyval * pystr) :=
  let (sign, s1) :=
    match s with
    | c :: r => if c =? 45 then ([45], r) else ([], s)
    | [] => ([], s)
    end in
  match s1 with
  | [] => None
  | c :: r =>
      if is_digit c then
        let (int_part, r1) :=
          if c =? 48 then ([c], r)
          else let (ds, rest) := take_digits r in (c :: ds, rest) in
        let (frac, r2) :=
          match r1 with
          | dot :: after_dot =>
              let (fs, rest) := take_digits after_dot in
              if (dot =? 46) && nonempty fs then (dot :: fs, rest) else ([], r1)
          | [] => ([], r1)
          end in
        let (exp, r3) :=
          match r2 with
          | e :: after_e =>
              let (sg, after_sign) :=
                match after_e with
                | x :: y =>
                    if (x =? 45) || (x =? 43) then ([x], y) else ([], after_e)
                | [] => ([], after_e)
                end in
              let (es, rest) := take_digits after_sign in
              if ((e =? 101) || (e =? 69)) && nonempty es
              then (e :: sg ++ es, rest) else ([], r2)
          | [] => ([], r2)
          end in
        match frac, exp with
        | [], [] =>
            let v := digits_value int_part in
            Some (PInt (match sign with [] => v | _ :: _ => - v end)%Z, r3)
        | _, _ => Some (PFloat (sign ++ int_part ++ frac ++ exp), r3)
        end
      else None
  end.

(** [s] without the prefix [p], when it has it. *)
Fixpoint strip_prefix (p s : pystr) : option pystr :=
  match p, s with
  | [], _ => Some s
  | a :: p', b :: s' => if a =? b then strip_prefix p' s' else None
  | _ :: _, [] => None
  end.

(** Constants and numbers, in the order [scan_once] tries them. *)
Definition scan_atom (s : pystr) : option (pyval * pystr) :=
  match strip_prefix (str "null") s with
  | Some r => Some (PNone, r)
  | None =>
  match strip_prefix (str "true") s with
  | Some r => Some (PBool true, r)
  | None =>
  match strip_prefix (str "false") s with
  | Some r => Some (PBool false, r)
  | None =>
  match scan_number s with
  | Some res => Some res
  | None =>
  match strip_prefix (str "NaN") s with
  | Some r => Some (PFloat (str "NaN"), r)
  | None =>
  match strip_prefix (str "Infinity") s with
  | Some r => Some (PFloat (str "Infinity"), r)
  | None =>
  match strip_prefix (str "-Infinity") s with
  | Some r => Some (PFloat (str "-Infinity"), r)
  | None => None
  end end end end end end end.

(** [scan_once] with [JSONObject] ([members]) and [JSONArray] ([elements]).
    Every call reads at least one character; [fuel] bounds the depth. *)
Fixpoint scan_once (fuel : nat) (s : pystr) : option (pyval * pystr) :=
  match fuel with
  | O => None
  | S fuel' =>
      match s with
      | [] => None
      | c :: r =>
          if c =? 34 then
            match scanstring (List.length r) r [] with
            | Some (t, rest) => Some (PStr t, rest)
            | None => None
            end
          else if c =? 123 then
            match skip_ws r with
            | c1 :: r2 =>
                if c1 =? 125 then Some (PDict [], r2)
                else members fuel' (c1 :: r2) []
            | [] => None
            end
          else if c =? 91 then
            match skip_ws r with
            | c1 :: r2 =>
                if c1 =? 93 then Some (PList [], r2)
                else elements fuel' (c1 :: r2) []
            | [] => None
            end
          else scan_atom s
      end
  end
with members (fuel : nat) (s : pystr) (acc : list (pystr * pyval))
  : option (pyval * pystr) :=
  match fuel with
  | O => None
  | S fuel' =>
      match s with
      | q :: r =>
          if q =? 34 then
            match scanstring (List.length r) r [] with
            | None => None
            | Some (k, r1) =>
                match skip_ws r1 with
                | colon :: r2 =>
                    if colon =? 58 then
                      match scan_once fuel' (skip_ws r2) with
                      | None => None
                      | Some (v, r3) =>
                          let acc' := dict_set k v acc in
                          match skip_ws r3 with
                          | c2 :: r4 =>
                              if c2 =? 125 then Some (PDict acc', r4)
                              else if c2 =? 44
                              then members fuel' (skip_ws r4) acc'
                              else None
                          | [] => None
                          end
                      end
                    else None
                | [] => None
                end
            end
          else None
      | [] => None
      end
  end
with elements (fuel : nat) (s : pystr) (acc : list pyval)
  : option (pyval * pystr) :=
  match fuel with
  | O => None
  | S fuel' =>
      match scan_once fuel' s with
      | None => None
      | Some (v, r1) =>
          match skip_ws r1 with
          | c2 :: r2 =>
              if c2 =? 93 then Some (PList (rev (v :: acc)), r2)
              else if c2 =? 44 then elements fuel' (skip_ws r2) (v :: acc)
              else None
          | [] => None
          end
      end
  end.

(** [JSONDecoder.decode]: one document, white space around it, nothing
    else.  [None] stands for [JSONDecodeError]. *)
Definition decode (s : pystr) : option pyval :=
  match scan_once (2 * List.length s + 2) (skip_ws s) with
  | Some (v, r) =>
      match skip_ws r with
      | [] => Some v
      | _ :: _ => None
      end
  | None => None
  end.

(** [json.loads(o)]: [TypeError] unless [o] is a [str]; [JSONDecodeError], a
    [ValueError], when the text is not a JSON document. *)
Definition loads (o : pyval) : result pyval :=
  match o with
  | PStr s =>
      match decode s with
      | Some v => Ok v
      | None => Raise ValueError
      end
  | _ => Raise TypeError
  end.

Definition hex_digit (n : N) : N := if n <? 10 then 48 + n else 87 + n.

Definition u_escape (n : N) : pystr :=
  [92; 117; hex_digit ((n / 4096) mod 16); hex_digit ((n / 256) mod 16);
   hex_digit ((n / 16) mod 16); hex_digit (n mod 16)].

(** [ESCAPE_ASCII] and [ESCAPE_DCT] of [json.encoder]. *)
Definition escape_char (c : N) : pystr :=
  if c =? 34 then [92; 34]
  else if c =? 92 then [92; 92]
  else if c =? 8 then [92; 98]
  else if c =? 12 then [92; 102]
  else if c =? 10 then [92; 110]
  else if c =? 13 then [92; 114]
  else if c =? 9 then [92; 116]
  else if (32 <=? c) && (c <=? 126) then [c]
  else if c <? 65536 then u_escape c
  else
    let n := c - 65536 in
    u_escape (55296 + (n / 1024) mod 1024) ++ u_escape (56320 + n mod 1024).

Definition encode_str (s : pystr) : pystr :=
  [34] ++ flat_map escape_char s ++ [34].

Fixpoint encode (o : pyval) : pystr :=
  match o with
  | PNone => str "null"
  | PBool true => str "true"
  | PBool false => str "false"
  | PInt z => str (NilZero.string_of_int (Z.to_int z))
  | PFloat literal => literal
  | PStr s => encode_str s
  | PList items =>
      let fix go (l : list pyval) : pystr :=
        match l with
        | [] => []
        | [x] => encode x
        | x :: r => encode x ++ str ", " ++ go r
        end in
      [91] ++ go items ++ [93]
  | PDict items =>
      let fix go (l : list (pystr * pyval)) : pystr :=
        match l with
        | [] => []
        | [(k, x)] => encode_str k ++ str ": " ++ encode x
        | (k, x) :: r =>
            encode_str k ++ str ": " ++ encode x ++ str ", " ++ go r
        end in
      [123] ++ go items ++ [125]
  end.

(** [json.dumps(o)]. *)
Definition dumps (o : pyval) : pyval := PStr (encode o).

End Json.

(* ================================================================== *)
(** ** What the server imports from [opengb.printer]

    [opengb/printer.py] is not among the sources.  The server uses one name
    of it in the code embedded here: the enumeration [State], through its
    member [State.DISCONNECTED] and through the call [State(value)], which
    returns the member that has this value and raises [ValueError] when
    there is none.  The enumeration is a parameter of the development. *)

Class PrinterState : Type := {
  State : Type;
  State_DISCONNECTED : State;
  (** [State(value)]; [None] stands for [ValueError]. *)
  State_call : Py.pyval -> option State
}.

(** Modelled from the spec: the members of [opengb.printer.State], which is
    not among the sources.  The spec names DISCONNECTED, READY, PRINTING,
    PAUSED and ERROR, and has the value "printing" parse to PRINTING; each
    member is given its lower-case name as value. *)
Inductive spec_state : Type :=
| DISCONNECTED
| READY
| PRINTING
| PAUSED
| ERROR.

Definition spec_state_call (value : Py.pyval) : option spec_state :=
  if Py.eq_str value (Py.str "disconnected") then Some DISCONNECTED
  else if Py.eq_str value (Py.str "ready") then Some READY
  else if Py.eq_str value (Py.str "printing") then Some PRINTING
  else if Py.eq_str value (Py.str "paused") then Some PAUSED
  else if Py.eq_str value (Py.str "error") then Some ERROR
  else None.

Definition SpecState : PrinterState := {|
  State := spec_state;
  State_DISCONNECTED := DISCONNECTED;
  State_call := spec_state_call
|}.

(* ================================================================== *)
(** ** [opengb/server.py] *)

Module Server.
Import Py.

(** A [WebSocketHandler] object.  Python compares handlers by identity: the
    record is the identity of the object, [hid] telling apart two
    connections from one address. *)
Record handler : Type := {
  hid : nat;
  remote_ip : pystr
}.

Definition handler_eqb (a b : handler) : bool :=
  Nat.eqb (hid a) (hid b) && pystr_eqb (remote_ip a) (remote_ip b).

(** What a call to [LOGGER] was given. *)
Inductive log_msg : Type :=
| Formatted (template : string) (arg : pyval)
| Plain (msg : pyval)
| Exception (e : exn).

Record log_record : Type := {
  levelno : Z;
  message : log_msg
}.

(** The levels [logging.INFO] and [logging.ERROR]. *)
Definition logging_INFO : Z := 20.
Definition logging_ERROR : Z := 40.

Section WithPrinter.
Context {printer : PrinterState}.

(** The dict [PRINTER]: its three keys are fixed, each one a field. *)
Record cache : Type := {
  state : State;
  temp : pyval;
  progress : pyval
}.

(** The module's globals, and the websocket transport under the handlers:
    [SENT] lists the messages handed to [write_message], oldest first, and
    [WS_CLOSED] the handlers whose connection is closed. *)
Record world : Type := {
  CLIENTS : list handler;
  TO_PRINTER : list pyval;
  FROM_PRINTER : list pyval;
  PRINTER : cache;
  LOGGER : list log_record;
  SENT : list (handler * pyval);
  WS_CLOSED : list handler
}.

Definition with_CLIENTS (x : list handler) (w : world) : world :=
  {| CLIENTS := x; TO_PRINTER := TO_PRINTER w;
     FROM_PRINTER := FROM_PRINTER w; PRINTER := PRINTER w;
     LOGGER := LOGGER w; SENT := SENT w; WS_CLOSED := WS_CLOSED w |}.

Definition with_TO_PRINTER (x : list pyval) (w : world) : world :=
  {| CLIENTS := CLIENTS w; TO_PRINTER := x;
     FROM_PRINTER := FROM_PRINTER w; PRINTER := PRINTER w;
     LOGGER := LOGGER w; SENT := SENT w; WS_CLOSED := WS_CLOSED w |}.

Definition with_FROM_PRINTER (x : list pyval) (w : world) : world :=
  {| CLIENTS := CLIENTS w; TO_PRINTER := TO_PRINTER w;
     FROM_PRINTER := x; PRINTER := PRINTER w;
     LOGGER := LOGGER w; SENT := SENT w; WS_CLOSED := WS_CLOSED w |}.

Definition with_PRINTER (x : cache) (w : world) : world :=
  {| CLIENTS := CLIENTS w; TO_PRINTER := TO_PRINTER w;
     FROM_PRINTER := FROM_PRINTER w; PRINTER := x;
     LOGGER := LOGGER w; SENT := SENT w; WS_CLOSED := WS_CLOSED w |}.

Definition with_LOGGER (x : list log_record) (w : world) : world :=
  {| CLIENTS := CLIENTS w; TO_PRINTER := TO_PRINTER w;
     FROM_PRINTER := FROM_PRINTER w; PRINTER := PRINTER w;
     LOGGER := x; SENT := SENT w; WS_CLOSED := WS_CLOSED w |}.

Definition with_SENT (x : list (handler * pyval)) (w : world) : world :=
  {| CLIENTS := CLIENTS w; TO_PRINTER := TO_PRINTER w;
     FROM_PRINTER := FROM_PRINTER w; PRINTER := PRINTER w;
     LOGGER := LOGGER w; SENT := x; WS_CLOSED := WS_CLOSED w |}.

(** The globals as the module initialises them, no connection yet. *)
Definition initial : world := {|
  CLIENTS := [];
  TO_PRINTER := [];
  FROM_PRINTER := [];
  PRINTER := {|
    state := State_DISCONNECTED;
    temp := PDict [(str "bed", PInt 0); (str "nozzle1", PInt 0);
                   (str "nozzle2", PInt 0)];
    progress := PDict [(str "current", PInt 0); (str "total", PInt 0)]
  |};
  LOGGER := [];
  SENT := [];
  WS_CLOSED := []
|}.

(** *** Statements: state and exceptions *)

Definition M (A : Type) : Type := world -> result A * world.

Definition ret {A : Type} (a : A) : M A := fun w => (Ok a, w).

Definition raise {A : Type} (e : exn) : M A := fun w => (Raise e, w).

Definition bind {A B : Type} (m : M A) (k : A -> M B) : M B :=
  fun w =>
    match m w with
    | (Ok a, w') => k a w'
    | (Raise e, w') => (Raise e, w')
    end.

(** The value of an expression that reads no global. *)
Definition lift {A : Type} (r : result A) : M A := fun w => (r, w).

Definition modify (f : world -> world) : M unit := fun w => (Ok tt, f w).

(** [try: body except cls as e: handle e], for one exception class. *)
Definition try_except {A : Type} (body : M A) (cls : exn) (handle : exn -> M A)
  : M A :=
  fun w =>
    match body w with
    | (Ok a, w') => (Ok a, w')
    | (Raise e, w') => if exn_eqb e cls then handle e w' else (Raise e, w')
    end.

Notation "x <- m ;; k" := (bind m (fun x => k))
  (at level 61, m at next level, right associativity).
Notation "m ;; k" := (bind m (fun _ => k))
  (at level 61, right associativity).

(** [for x in l: body x]. *)
Fixpoint for_each {A : Type} (l : list A) (body : A -> M unit) : M unit :=
  match l with
  | [] => ret tt
  | x :: l' => body x ;; for_each l' body
  end.

(** *** The logger *)

Definition emit (r : log_record) : M unit :=
  modify (fun w => with_LOGGER (LOGGER w ++ [r]) w).

(** [LOGGER.info(template.format(arg))]. *)
Definition LOGGER_info (template : string) (arg : pyval) : M unit :=
  emit {| levelno := logging_INFO; message := Formatted template arg |}.

(** [LOGGER.error(template.format(arg))]. *)
Definition LOGGER_error (template : string) (arg : pyval) : M unit :=
  emit {| levelno := logging_ERROR; message := Formatted template arg |}.

(** [LOGGER.exception(e)]: a record of level ERROR. *)
Definition LOGGER_exception (e : exn) : M unit :=
  emit {| levelno := logging_ERROR; message := Exception e |}.

(** [LOGGER.log(level, msg)]: [logging] raises [TypeError] when the level is
    not an integer. *)
Definition LOGGER_log (level msg : pyval) : M unit :=
  match as_int level with
  | Some n => emit {| levelno := n; message := Plain msg |}
  | None => raise TypeError
  end.

(** *** The websocket transport *)

Definition is_closed (self : handler) (w : world) : bool :=
  existsb (handler_eqb self) (WS_CLOSED w).

(** [self.write_message(message)]: tornado raises [WebSocketClosedError] on
    a closed connection. *)
Definition write_message (self : handler) (message : pyval) : M unit :=
  fun w =>
    if is_closed self w then (Raise WebSocketClosedError, w)
    else (Ok tt, with_SENT (SENT w ++ [(self, message)]) w).

(** *** [MessageHandler] *)

(** An argument of a call, or the default of the parameter when the call
    leaves it out. *)
Definition arg_or (default : pyval) (a : option pyval) : pyval :=
  match a with
  | Some v => v
  | None => default
  end.

(** [TO_PRINTER.put(item)]. *)
Definition TO_PRINTER_put (item : pyval) : M unit :=
  modify (fun w => with_TO_PRINTER (TO_PRINTER w ++ [item]) w).

(** The dict [set_temp] hands to [json.dumps]. *)
Definition set_temp_message (bed nozzle1 nozzle2 : pyval) : pyval :=
  PDict [(str "method", PStr (str "set_temp"));
         (str "params", PDict [(str "bed", bed);
                               (str "nozzle1", nozzle1);
                               (str "nozzle2", nozzle2)])].

(** [MessageHandler.set_temp(bed=None, nozzle1=None, nozzle2=None)]. *)
Definition set_temp (bed nozzle1 nozzle2 : option pyval) : M pyval :=
  TO_PRINTER_put
    (Json.dumps (set_temp_message (arg_or PNone bed) (arg_or PNone nozzle1)
                                  (arg_or PNone nozzle2))) ;;
  ret (PBool true).

(** *** [WebSocketHandler] *)

(** [l.remove(x)]: the list without the first item equal to [x]; [None]
    stands for the [ValueError] of a list that has no such item. *)
Fixpoint list_remove (x : handler) (l : list handler) : option (list handler) :=
  match l with
  | [] => None
  | y :: l' =>
      if handler_eqb y x then Some l'
      else match list_remove x l' with
           | Some r => Some (y :: r)
           | None => None
           end
  end.

(** [WebSocketHandler.on_close]. *)
Definition on_close (self : handler) : M unit :=
  LOGGER_info "Connection closed to {0}" (PStr (remote_ip self)) ;;
  fun w =>
    match list_remove self (CLIENTS w) with
    | Some l => (Ok tt, with_CLIENTS l w)
    | None => (Raise ValueError, w)
    end.

(** *** Module functions *)

(** [broadcast_message(message)]. *)
Definition broadcast_message (message : pyval) : M unit :=
  fun w => for_each (CLIENTS w) (fun each => write_message each message) w.

Definition set_state (s : State) : M unit :=
  modify (fun w => with_PRINTER {| state := s; temp := temp (PRINTER w);
                                   progress := progress (PRINTER w) |} w).

Definition set_cache_temp (v : pyval) : M unit :=
  modify (fun w => with_PRINTER {| state := state (PRINTER w); temp := v;
                                   progress := progress (PRINTER w) |} w).

Definition set_cache_progress (v : pyval) : M unit :=
  modify (fun w => with_PRINTER {| state := state (PRINTER w);
                                   temp := temp (PRINTER w);
                                   progress := v |} w).

(** [opengb.printer.State(value)]. *)
Definition State_of (value : pyval) : result State :=
  match State_call value with
  | Some s => Ok s
  | None => Raise ValueError
  end.

(** [process_event(event)]. *)
Definition process_event (event : pyval) : M unit :=
  try_except
    (m <- lift (getitem event (str "method")) ;;
     if eq_str m (str "state") then
       p <- lift (getitem event (str "params")) ;;
       v <- lift (getitem p (str "new")) ;;
       s <- lift (State_of v) ;;
       set_state s
     else
       m <- lift (getitem event (str "method")) ;;
       if eq_str m (str "temp") then
         p <- lift (getitem event (str "params")) ;;
         set_cache_temp p
       else
         m <- lift (getitem event (str "method")) ;;
         if eq_str m (str "progress") then
           p <- lift (getitem event (str "params")) ;;
           set_cache_progress p
         else
           m <- lift (getitem event (str "method")) ;;
           if eq_str m (str "zchange") then ret tt
           else ret tt)
    KeyError
    (fun _ => LOGGER_error "Malformed event from printer: {0}" event).

(** [process_printer_events()]: one run of the periodic callback. *)
Definition process_printer_events : M unit :=
  fun w =>
    match FROM_PRINTER w with
    | [] => (Ok tt, w)
    | item :: rest =>
        try_except
          (modify (with_FROM_PRINTER rest) ;;
           event <- lift (Json.loads item) ;;
           m <- lift (getitem event (str "method")) ;;
           if eq_str m (str "log") then
             p <- lift (getitem event (str "params")) ;;
             level <- lift (getitem p (str "level")) ;;
             p' <- lift (getitem event (str "params")) ;;
             msg <- lift (getitem p' (str "msg")) ;;
             LOGGER_log level msg
           else
             broadcast_message event ;;
             process_event event)
          TypeError
          (fun e => LOGGER_exception e)
          w
    end.

(** The events of a list folded into the cache one after the other, as the
    periodic callback hands them to [process_event]: an exception ends the
    callback that met it, not the loop that runs the callbacks. *)
Fixpoint process_events (events : list pyval) (w : world) : world :=
  match events with
  | [] => w
  | event :: events' => process_events events' (snd (process_event event w))
  end.

End WithPrinter.

End Server.

(* ================================================================== *)
(** ** The handlers that write the cached state

    [WebSocketHandler.open] and [StatusHandler.get] hand the cached state to
    [json.dumps] with [cls=opengb.printer.StateEncoder], which is not among
    the sources either: the encoder is a second parameter, the JSON value it
    writes for each member of [State]. *)

Class StateEncoder {printer : PrinterState} : Type := {
  State_json : State -> Py.pyval
}.

(** Modelled from the spec: [opengb.printer.StateEncoder], which is not
    among the sources.  The spec shows a state in a message as the value the
    enumeration parses it from; each member is written as that value. *)
Definition spec_state_json (s : spec_state) : Py.pyval :=
  match s with
  | DISCONNECTED => Py.PStr (Py.str "disconnected")
  | READY => Py.PStr (Py.str "ready")
  | PRINTING => Py.PStr (Py.str "printing")
  | PAUSED => Py.PStr (Py.str "paused")
  | ERROR => Py.PStr (Py.str "error")
  end.

Definition SpecEncoder : @StateEncoder SpecState :=
  @Build_StateEncoder SpecState spec_state_json.

Module WebSocketHandler.
Import Py Server.

Section WithEncoder.
Context {printer : PrinterState} {encoder : StateEncoder}.

(** The dict [open] hands to [json.dumps], the state already replaced by
    what the encoder writes for it. *)
Definition state_message (s : State) : pyval :=
  PDict [(str "cmd", PStr (str "STATE")); (str "new", State_json s)].

(** [WebSocketHandler.open]. *)
Definition open (self : handler) : M unit :=
  bind (LOGGER_info "New connection from {0}" (PStr (remote_ip self)))
    (fun _ =>
       bind (modify (fun w => with_CLIENTS (CLIENTS w ++ [self]) w))
         (fun _ w =>
            write_message self
              (Json.dumps (state_message (state (PRINTER w)))) w)).

End WithEncoder.
End WebSocketHandler.

Module StatusHandler.
Import Py Server.

(** What a request handler has written: the chunks of the body, oldest
    first, and the headers it has set. *)
Record response : Type := {
  chunks : list pyval;
  headers : list (pystr * pystr)
}.

Section WithEncoder.
Context {printer : PrinterState} {encoder : StateEncoder}.

(** The dict [PRINTER] as [json.dumps] sees it, the state replaced by what
    the encoder writes for it. *)
Definition PRINTER_json (c : cache) : pyval :=
  PDict [(str "state", State_json (state c));
         (str "temp", temp c);
         (str "progress", progress c)].

(** [StatusHandler.get]: [self.write] of the text, then [self.set_header]. *)
Definition get : M response :=
  fun w =>
    (Ok {| chunks := [Json.dumps (PRINTER_json (PRINTER w))];
           headers := [(str "Content-Type", str "application/json")] |},
     w).

End WithEncoder.
End StatusHandler.

(* ================================================================== *)
(** ** Properties *)

Import Py Server.

Arguments str : simpl never.

(** *** Vocabulary of the statements *)

(** A text between quotation marks. *)
Definition quote (s : pystr) : pystr := (34 :: s ++ [34])%N.

(** The record [process_event] logs for a malformed event. *)
Definition malformed (event : pyval) : log_record :=
  {| levelno := logging_ERROR;
     message := Formatted "Malformed event from printer: {0}" event |}.

(** The record [process_printer_events] logs for a caught exception. *)
Definition exception_record (e : exn) : log_record :=
  {| levelno := logging_ERROR; message := Exception e |}.

(** The record [on_close] logs. *)
Definition closed_record (self : handler) : log_record :=
  {| levelno := logging_INFO;
     message := Formatted "Connection closed to {0}" (PStr (remote_ip self)) |}.

(** The counters of a progress mapping are consistent: when [total] is a
    positive integer, [current] is an integer and at most [total]. *)
Definition progress_ok (p : pyval) : bool :=
  match p with
  | PDict d =>
      match dict_get (str "total") d with
      | Some (PInt total) =>
          if 0 <? total then
            match dict_get (str "current") d with
            | Some (PInt current) => current <=? total
            | _ => false
            end
          else true
      | _ => true
      end
  | _ => true
  end.

(** The messages a broadcast hands to the handlers of [l]. *)
Definition copies (message : pyval) (l : list handler)
  : list (handler * pyval) :=
  map (fun each => (each, message)) l.

(** An event as the printer process builds it. *)
Definition event_of (method : string) (params : list (pystr * pyval)) : pyval :=
  PDict [(str "method", PStr (str method)); (str "params", PDict params)].

(** Two connected clients. *)
Definition client1 : handler := {| hid := 1; remote_ip := str "10.0.0.1" |}.
Definition client2 : handler := {| hid := 2; remote_ip := str "10.0.0.2" |}.

(** The initial globals with the printer of the spec, the given clients
    registered, the given connections closed and the given items waiting on
    [FROM_PRINTER]. *)
Definition sample (clients closed : list handler) (inbound : list pyval)
  : @world SpecState :=
  {| CLIENTS := clients; TO_PRINTER := []; FROM_PRINTER := inbound;
     PRINTER := PRINTER (@initial SpecState); LOGGER := []; SENT := [];
     WS_CLOSED := closed |}.

(** The record [open] logs. *)
Definition opened_record (self : handler) : log_record :=
  {| levelno := logging_INFO;
     message := Formatted "New connection from {0}" (PStr (remote_ip self)) |}.

(** The globals [w] with a new inbound queue and a new cache, more sent and
    more logged. *)
Definition ran {printer : PrinterState} (q : list pyval) (c : cache)
           (sent : list (handler * pyval)) (lg : list log_record)
           (w : world) : world :=
  {| CLIENTS := CLIENTS w; TO_PRINTER := TO_PRINTER w; FROM_PRINTER := q;
     PRINTER := c; LOGGER := LOGGER w ++ lg; SENT := SENT w ++ sent;
     WS_CLOSED := WS_CLOSED w |}.

(** A statement neither reads nor writes [TO_PRINTER]: run with another
    queue to the printer, it ends the same way and leaves that queue. *)
Definition ignores_TO_PRINTER {printer : PrinterState} {A : Type} (m : M A)
  : Prop :=
  forall x w,
    m (with_TO_PRINTER x w) = (fst (m w), with_TO_PRINTER x (snd (m w))).

(** *** Equality tests *)

Lemma pystr_eqb_eq (a b : pystr) : pystr_eqb a b = true <-> a = b.
Proof.
  revert b; induction a as [|x a IH]; intros [|y b]; simpl;
    try (split; [discriminate | congruence]); try tauto.
  rewrite andb_true_iff, N.eqb_eq, IH.
  split; [intros [-> ->]; reflexivity | intros H; inversion H; auto].
Qed.

Lemma pystr_eqb_refl (a : pystr) : pystr_eqb a a = true.
Proof. apply pystr_eqb_eq; reflexivity. Qed.

Lemma handler_eqb_eq (a b : handler) : handler_eqb a b = true <-> a = b.
Proof.
  unfold handler_eqb; rewrite andb_true_iff, Nat.eqb_eq, pystr_eqb_eq.
  destruct a, b; simpl; split; [intros [-> ->]; reflexivity |].
  intros H; inversion H; auto.
Qed.

Lemma handler_eqb_neq (a b : handler) : handler_eqb a b = false <-> a <> b.
Proof.
  rewrite <- handler_eqb_eq; destruct (handler_eqb a b); split;
    congruence.
Qed.

Lemma eq_str_PStr (s t : pystr) : eq_str (PStr s) t = pystr_eqb s t.
Proof. reflexivity. Qed.

Lemma eq_str_true (m : pyval) (s : pystr) :
  eq_str m s = true -> m = PStr s.
Proof.
  destruct m; simpl; try discriminate.
  intros H; apply pystr_eqb_eq in H; congruence.
Qed.

Section Facts.
Context {printer : PrinterState}.

(** *** Record updates *)

Lemma with_LOGGER_same (w : world) : with_LOGGER (LOGGER w) w = w.
Proof. destruct w; reflexivity. Qed.

Lemma with_SENT_same (w : world) : with_SENT (SENT w) w = w.
Proof. destruct w; reflexivity. Qed.

Lemma with_SENT_twice (a b : list (handler * pyval)) (w : world) :
  with_SENT a (with_SENT b w) = with_SENT a w.
Proof. reflexivity. Qed.

(** *** The reducer, case by case *)

(** Unfolds one run of the statement monad. *)
Ltac run :=
  unfold process_event, try_except, bind, lift, ret, raise, set_state,
    set_cache_temp, set_cache_progress, LOGGER_error, LOGGER_info,
    LOGGER_exception, emit, modify, getitem; simpl.

(** An event whose method is none of the three the reducer stores leaves
    every global as it was. *)
Lemma process_event_skip (d : list (pystr * pyval)) (m : pyval) (w : world) :
  dict_get (str "method") d = Some m ->
  eq_str m (str "state") = false ->
  eq_str m (str "temp") = false ->
  eq_str m (str "progress") = false ->
  process_event (PDict d) w = (Ok tt, w).
Proof.
  intros Hm Hs Ht Hp; run.
  rewrite Hm, Hs, Ht, Hp.
  destruct (eq_str m (str "zchange")); reflexivity.
Qed.

(** A subscript that raises [KeyError] ends in the handler: one record, and
    nothing else changes. *)
Lemma process_event_no_method (d : list (pystr * pyval)) (w : world) :
  dict_get (str "method") d = None ->
  process_event (PDict d) w
  = (Ok tt, with_LOGGER (LOGGER w ++ [malformed (PDict d)]) w).
Proof. intros Hm; run; rewrite Hm; reflexivity. Qed.

Lemma process_event_no_params (d : list (pystr * pyval)) (m : pyval)
      (w : world) :
  dict_get (str "method") d = Some m ->
  eq_str m (str "state") = true \/ eq_str m (str "temp") = true
    \/ eq_str m (str "progress") = true ->
  dict_get (str "params") d = None ->
  process_event (PDict d) w
  = (Ok tt, with_LOGGER (LOGGER w ++ [malformed (PDict d)]) w).
Proof.
  intros Hm Hcase Hp; run; rewrite Hm, Hp.
  destruct (eq_str m (str "state")); [reflexivity |].
  destruct (eq_str m (str "temp")); [reflexivity |].
  destruct (eq_str m (str "progress")); [reflexivity |].
  destruct Hcase as [H | [H | H]]; discriminate.
Qed.

Lemma process_event_state_no_new (d p : list (pystr * pyval)) (m : pyval)
      (w : world) :
  dict_get (str "method") d = Some m ->
  eq_str m (str "state") = true ->
  dict_get (str "params") d = Some (PDict p) ->
  dict_get (str "new") p = None ->
  process_event (PDict d) w
  = (Ok tt, with_LOGGER (LOGGER w ++ [malformed (PDict d)]) w).
Proof. intros Hm Hs Hp Hn; run; rewrite Hm, Hs, Hp, Hn; reflexivity. Qed.

(** A state event with a value of the enumeration stores the member. *)
Lemma process_event_state (d : list (pystr * pyval)) (m p v : pyval)
      (s : State) (w : world) :
  dict_get (str "method") d = Some m ->
  eq_str m (str "state") = true ->
  dict_get (str "params") d = Some p ->
  getitem p (str "new") = Ok v ->
  State_call v = Some s ->
  process_event (PDict d) w
  = (Ok tt, with_PRINTER {| state := s; temp := temp (PRINTER w);
                            progress := progress (PRINTER w) |} w).
Proof.
  intros Hm Hs Hp Hn Hv; unfold process_event, try_except, bind, lift.
  simpl getitem at 1; rewrite Hm, Hs.
  simpl getitem at 1; rewrite Hp, Hn.
  unfold State_of; rewrite Hv; reflexivity.
Qed.

(** A state event with a value that is no member's: [State(value)] raises
    [ValueError], which the handler for [KeyError] lets through. *)
Lemma process_event_state_invalid (d : list (pystr * pyval)) (m p v : pyval)
      (w : world) :
  dict_get (str "method") d = Some m ->
  eq_str m (str "state") = true ->
  dict_get (str "params") d = Some p ->
  getitem p (str "new") = Ok v ->
  State_call v = None ->
  process_event (PDict d) w = (Raise ValueError, w).
Proof.
  intros Hm Hs Hp Hn Hv; unfold process_event, try_except, bind, lift.
  simpl getitem at 1; rewrite Hm, Hs.
  simpl getitem at 1; rewrite Hp, Hn.
  unfold State_of; rewrite Hv; reflexivity.
Qed.

Lemma process_event_temp (d : list (pystr * pyval)) (m p : pyval)
      (w : world) :
  dict_get (str "method") d = Some m ->
  eq_str m (str "state") = false ->
  eq_str m (str "temp") = true ->
  dict_get (str "params") d = Some p ->
  process_event (PDict d) w
  = (Ok tt, with_PRINTER {| state := state (PRINTER w); temp := p;
                            progress := progress (PRINTER w) |} w).
Proof. intros Hm Hs Ht Hp; run; rewrite Hm, Hs, Ht, Hp; reflexivity. Qed.

Lemma process_event_progress (d : list (pystr * pyval)) (m p : pyval)
      (w : world) :
  dict_get (str "method") d = Some m ->
  eq_str m (str "state") = false ->
  eq_str m (str "temp") = false ->
  eq_str m (str "progress") = true ->
  dict_get (str "params") d = Some p ->
  process_event (PDict d) w
  = (Ok tt, with_PRINTER {| state := state (PRINTER w);
                            temp := temp (PRINTER w); progress := p |} w).
Proof.
  intros Hm Hs Ht Hpr Hp; run; rewrite Hm, Hs, Ht, Hpr, Hp; reflexivity.
Qed.

End Facts.

Section Reducer.
Context {printer : PrinterState}.

(** C10: for every inbound event whose method is none of 'state', 'temp' and
    'progress' (so also 'zchange' and any unknown method), the reducer
    returns normally and leaves the cache, with every other global,
    unchanged. *)
Theorem process_event_other_method (d : list (pystr * pyval)) (m : pyval)
        (w : world) :
  dict_get (str "method") d = Some m ->
  eq_str m (str "state") = false ->
  eq_str m (str "temp") = false ->
  eq_str m (str "progress") = false ->
  process_event (PDict d) w = (Ok tt, w)
  /\ state (PRINTER (snd (process_event (PDict d) w))) = state (PRINTER w)
  /\ temp (PRINTER (snd (process_event (PDict d) w))) = temp (PRINTER w)
  /\ progress (PRINTER (snd (process_event (PDict d) w)))
     = progress (PRINTER w).
Proof.
  intros Hm Hs Ht Hp.
  rewrite (process_event_skip d m w Hm Hs Ht Hp); simpl; auto.
Qed.

(** C2 (amended): for every inbound event that lacks a key the reducer
    reads (a 'state' event whose params is a mapping without 'new'; a
    'state', 'temp' or 'progress' event without 'params'; an event without
    'method'), the reducer returns normally, logs exactly one record, which
    carries the raw event, and leaves the cache unchanged.  The keys of a
    'temp' or 'progress' params are not among them: the reducer reads none
    of them, see [temp_event_without_keys_is_stored]. *)
Theorem process_event_missing_key (d : list (pystr * pyval)) (w : world) :
  (exists p,
      dict_get (str "method") d = Some (PStr (str "state"))
      /\ dict_get (str "params") d = Some (PDict p)
      /\ dict_get (str "new") p = None)
  \/ (exists m,
         dict_get (str "method") d = Some (PStr m)
         /\ In m [str "state"; str "temp"; str "progress"]
         /\ dict_get (str "params") d = None)
  \/ dict_get (str "method") d = None ->
  process_event (PDict d) w
  = (Ok tt, with_LOGGER (LOGGER w ++ [malformed (PDict d)]) w)
  /\ PRINTER (snd (process_event (PDict d) w)) = PRINTER w.
Proof.
  intros H.
  assert (E : process_event (PDict d) w
              = (Ok tt, with_LOGGER (LOGGER w ++ [malformed (PDict d)]) w)).
  { destruct H as [(p & Hm & Hp & Hn) | [(m & Hm & Hin & Hp) | Hm]].
    - apply (process_event_state_no_new d p _ w Hm); auto.
    - apply (process_event_no_params d _ w Hm); auto.
      simpl in Hin; destruct Hin as [<- | [<- | [<- | []]]];
        rewrite !eq_str_PStr, pystr_eqb_refl; auto.
    - apply process_event_no_method; assumption. }
  rewrite E; split; reflexivity.
Qed.

(** C6: an inbound 'temp' event replaces the whole of the cached
    temperatures by the event's params, and an inbound 'progress' event the
    whole of the cached progress: the stored mapping is the params itself,
    whatever keys the old one had, and the other two fields are unchanged. *)
Theorem process_event_replaces (d : list (pystr * pyval)) (p : pyval)
        (w : world) :
  dict_get (str "params") d = Some p ->
  (dict_get (str "method") d = Some (PStr (str "temp")) ->
   process_event (PDict d) w
   = (Ok tt, with_PRINTER {| state := state (PRINTER w); temp := p;
                             progress := progress (PRINTER w) |} w))
  /\ (dict_get (str "method") d = Some (PStr (str "progress")) ->
      process_event (PDict d) w
      = (Ok tt, with_PRINTER {| state := state (PRINTER w);
                                temp := temp (PRINTER w);
                                progress := p |} w)).
Proof.
  intros Hp; split; intros Hm.
  - apply (process_event_temp d _ p w Hm); auto.
  - apply (process_event_progress d _ p w Hm); auto.
Qed.

End Reducer.

(** Witness of [process_event_other_method]: a 'zchange' event. *)
Lemma process_event_other_method_witness :
  let d := [(str "method", PStr (str "zchange")); (str "params", PDict [])] in
  let w := sample [client1] [] [] in
  dict_get (str "method") d = Some (PStr (str "zchange"))
  /\ process_event (PDict d) w = (Ok tt, w).
Proof.
  intros d w; split; [reflexivity |].
  apply (process_event_other_method d (PStr (str "zchange")) w);
    reflexivity.
Defined.

(** Witness of [process_event_missing_key]: a 'state' event with empty
    params. *)
Lemma process_event_missing_key_witness :
  let d := [(str "method", PStr (str "state")); (str "params", PDict [])] in
  let w := sample [client1] [] [] in
  process_event (PDict d) w
  = (Ok tt, with_LOGGER [malformed (PDict d)] w)
  /\ PRINTER (snd (process_event (PDict d) w)) = PRINTER w.
Proof.
  intros d w.
  apply (process_event_missing_key d w).
  left; exists []; repeat split; reflexivity.
Defined.

(** Counterexample to C2 read over every event kind: a 'temp' event whose
    params has none of 'bed', 'nozzle1', 'nozzle2', and a 'progress' event
    whose params has no 'total'.  The reducer returns normally, logs
    nothing, and the cache is not left as it was: the params replaces the
    cached mapping. *)
Lemma temp_event_without_keys_is_stored :
  let w := sample [client1] [] [] in
  let t := [(str "method", PStr (str "temp")); (str "params", PDict [])] in
  let g := [(str "method", PStr (str "progress"));
            (str "params", PDict [(str "current", PInt 3)])] in
  (dict_get (str "bed") [] = None
   /\ dict_get (str "nozzle1") [] = None
   /\ dict_get (str "nozzle2") [] = None
   /\ fst (process_event (PDict t) w) = Ok tt
   /\ LOGGER (snd (process_event (PDict t) w)) = []
   /\ temp (PRINTER (snd (process_event (PDict t) w))) = PDict []
   /\ PRINTER (snd (process_event (PDict t) w)) <> PRINTER w)
  /\ (dict_get (str "total") [(str "current", PInt 3)] = None
      /\ fst (process_event (PDict g) w) = Ok tt
      /\ LOGGER (snd (process_event (PDict g) w)) = []
      /\ progress (PRINTER (snd (process_event (PDict g) w)))
         = PDict [(str "current", PInt 3)]
      /\ PRINTER (snd (process_event (PDict g) w)) <> PRINTER w).
Proof.
  intros w t g; repeat split; try reflexivity;
    vm_compute; intros H; discriminate H.
Qed.

(** Witness of [process_event_replaces]: a 'temp' event that carries the bed
    only, and a 'progress' event. *)
Lemma process_event_replaces_witness :
  let w := sample [] [] [] in
  let t := PDict [(str "bed", PInt 61)] in
  let p := PDict [(str "current", PInt 3); (str "total", PInt 10)] in
  temp (PRINTER (snd (process_event
                        (PDict [(str "method", PStr (str "temp"));
                                (str "params", t)]) w))) = t
  /\ progress (PRINTER (snd (process_event
                              (PDict [(str "method", PStr (str "progress"));
                                      (str "params", p)]) w))) = p.
Proof.
  intros w t p; split.
  - rewrite (proj1 (process_event_replaces
                      [(str "method", PStr (str "temp")); (str "params", t)]
                      t w eq_refl) eq_refl).
    reflexivity.
  - rewrite (proj2 (process_event_replaces
                      [(str "method", PStr (str "progress"));
                       (str "params", p)]
                      p w eq_refl) eq_refl).
    reflexivity.
Defined.

(** *** The websocket registry and the broadcast *)

Section Hub.
Context {printer : PrinterState}.

Lemma for_each_write_open (message : pyval) (l : list handler) :
  forall w : world,
    (forall h, In h l -> is_closed h w = false) ->
    for_each l (fun each => write_message each message) w
    = (Ok tt, with_SENT (SENT w ++ copies message l) w).
Proof.
  induction l as [|h l IH]; intros w Hopen; simpl.
  - unfold ret; rewrite app_nil_r, with_SENT_same; reflexivity.
  - unfold bind, write_message at 1.
    rewrite (Hopen h (or_introl eq_refl)).
    rewrite IH by (intros x Hx; apply (Hopen x); right; exact Hx).
    simpl; rewrite <- app_assoc; reflexivity.
Qed.

Lemma for_each_write_closed (message : pyval) (l1 l2 : list handler)
      (h : handler) (w : world) :
  (forall x, In x l1 -> is_closed x w = false) ->
  is_closed h w = true ->
  for_each (l1 ++ h :: l2) (fun each => write_message each message) w
  = (Raise WebSocketClosedError, with_SENT (SENT w ++ copies message l1) w).
Proof.
  revert w; induction l1 as [|x l1 IH]; intros w Hopen Hclosed; simpl.
  - unfold bind, write_message at 1; rewrite Hclosed.
    rewrite app_nil_r, with_SENT_same; reflexivity.
  - unfold bind, write_message at 1.
    rewrite (Hopen x (or_introl eq_refl)).
    rewrite IH; [| intros y Hy; apply (Hopen y); right; exact Hy
                 | exact Hclosed].
    simpl; rewrite <- app_assoc; reflexivity.
Qed.

(** Among the handlers of a list, either none is closed or there is a first
    closed one. *)
Lemma first_closed (l : list handler) (w : world) :
  (forall h, In h l -> is_closed h w = false)
  \/ exists l1 h l2,
      l = l1 ++ h :: l2
      /\ (forall x, In x l1 -> is_closed x w = false)
      /\ is_closed h w = true.
Proof.
  induction l as [|x l IH]; [left; intros h [] |].
  destruct (is_closed x w) eqn:Hx.
  - right; exists [], x, l; repeat split; auto; intros y [].
  - destruct IH as [Hall | (l1 & h & l2 & -> & Hopen & Hclosed)].
    + left; intros h [<- | Hin]; auto.
    + right; exists (x :: l1), h, l2; repeat split; auto.
      intros y [<- | Hin]; auto.
Qed.

(** A broadcast writes to [SENT] only. *)
Lemma broadcast_message_frame (message : pyval) (w : world) :
  exists sent,
    snd (broadcast_message message w) = with_SENT (SENT w ++ sent) w.
Proof.
  unfold broadcast_message.
  destruct (first_closed (CLIENTS w) w)
    as [Hall | (l1 & h & l2 & E & Hopen & Hclosed)].
  - rewrite for_each_write_open by exact Hall; eexists; reflexivity.
  - rewrite E, for_each_write_closed by assumption; eexists; reflexivity.
Qed.

Lemma list_remove_absent (self : handler) (l : list handler) :
  ~ In self l -> list_remove self l = None.
Proof.
  induction l as [|y l IH]; intros Hnin; simpl; [reflexivity |].
  destruct (handler_eqb y self) eqn:E.
  - apply handler_eqb_eq in E; subst; exfalso; apply Hnin; left; reflexivity.
  - rewrite IH; [reflexivity | intros Hin; apply Hnin; right; exact Hin].
Qed.

Lemma list_remove_present (self : handler) (l1 l2 : list handler) :
  ~ In self l1 -> list_remove self (l1 ++ self :: l2) = Some (l1 ++ l2).
Proof.
  induction l1 as [|y l1 IH]; intros Hnin; simpl.
  - replace (handler_eqb self self) with true; [reflexivity |].
    symmetry; apply handler_eqb_eq; reflexivity.
  - destruct (handler_eqb y self) eqn:E.
    + apply handler_eqb_eq in E; subst; exfalso; apply Hnin; left; reflexivity.
    + rewrite IH; [reflexivity | intros Hin; apply Hnin; right; exact Hin].
Qed.

End Hub.

Section HubClaims.
Context {printer : PrinterState}.

(** C7 (amended): a broadcast never changes the registry.  When no
    registered session is closed, every registered session is sent the
    message, in the order of the registry, and nothing is raised.  When a
    registered session is closed, [WebSocketClosedError] leaves the
    broadcast at the first such session: the sessions before it have been
    sent the message, the sessions after it are sent nothing. *)
Theorem broadcast_message_delivery (message : pyval) (w : world) :
  CLIENTS (snd (broadcast_message message w)) = CLIENTS w
  /\ ((forall h, In h (CLIENTS w) -> is_closed h w = false) ->
      broadcast_message message w
      = (Ok tt, with_SENT (SENT w ++ copies message (CLIENTS w)) w))
  /\ (forall l1 h l2,
        CLIENTS w = l1 ++ h :: l2 ->
        (forall x, In x l1 -> is_closed x w = false) ->
        is_closed h w = true ->
        broadcast_message message w
        = (Raise WebSocketClosedError,
           with_SENT (SENT w ++ copies message l1) w)).
Proof.
  split; [| split].
  - destruct (broadcast_message_frame message w) as [sent ->]; reflexivity.
  - intros Hopen; unfold broadcast_message.
    apply for_each_write_open; exact Hopen.
  - intros l1 h l2 E Hopen Hclosed; unfold broadcast_message.
    rewrite E; apply for_each_write_closed; assumption.
Qed.

(** C8 (amended): [on_close] for a session that is not in the registry (a
    second call for the same session) logs the closing, raises the
    [ValueError] of [list.remove] and leaves the registry, so every
    remaining session, as it was. *)
Theorem on_close_not_registered (self : handler) (w : world) :
  ~ In self (CLIENTS w) ->
  on_close self w
  = (Raise ValueError, with_LOGGER (LOGGER w ++ [closed_record self]) w)
  /\ CLIENTS (snd (on_close self w)) = CLIENTS w.
Proof.
  intros Hnin.
  assert (E : on_close self w
              = (Raise ValueError,
                 with_LOGGER (LOGGER w ++ [closed_record self]) w)).
  { unfold on_close, bind, LOGGER_info, emit, modify; simpl.
    rewrite (list_remove_absent self (CLIENTS w) Hnin); reflexivity. }
  rewrite E; split; reflexivity.
Qed.

(** The first [on_close] of a registered session removes it. *)
Lemma on_close_registered (self : handler) (l1 l2 : list handler)
      (w : world) :
  CLIENTS w = l1 ++ self :: l2 ->
  ~ In self l1 ->
  on_close self w
  = (Ok tt,
     with_CLIENTS (l1 ++ l2)
       (with_LOGGER (LOGGER w ++ [closed_record self]) w)).
Proof.
  intros E Hnin.
  unfold on_close, bind, LOGGER_info, emit, modify; simpl.
  rewrite E, (list_remove_present self l1 l2 Hnin); reflexivity.
Qed.

End HubClaims.

(** Witness of [broadcast_message_delivery]: two open sessions; then the
    first of the two closed. *)
Lemma broadcast_message_delivery_witness :
  let message := event_of "zchange" [] in
  broadcast_message message (sample [client1; client2] [] [])
  = (Ok tt,
     with_SENT [(client1, message); (client2, message)]
       (sample [client1; client2] [] []))
  /\ broadcast_message message (sample [client2; client1] [client1] [])
     = (Raise WebSocketClosedError,
        with_SENT [(client2, message)]
          (sample [client2; client1] [client1] [])).
Proof.
  intros message; split.
  - apply (proj1 (proj2 (broadcast_message_delivery message
                           (sample [client1; client2] [] [])))).
    intros h Hin; reflexivity.
  - apply (proj2 (proj2 (broadcast_message_delivery message
                           (sample [client2; client1] [client1] [])))
             [client2] client1 []); [reflexivity | | reflexivity].
    intros x [<- | []]; reflexivity.
Defined.

(** Counterexample to C7 as stated: with two sessions registered and the
    first one closed, the exception leaves the broadcast and the second
    session, which is open, is sent nothing. *)
Lemma broadcast_message_not_best_effort :
  let message := event_of "zchange" [] in
  let w := sample [client1; client2] [client1] [] in
  is_closed client2 w = false
  /\ broadcast_message message w = (Raise WebSocketClosedError, w)
  /\ ~ (fst (broadcast_message message w) = Ok tt
        /\ In (client2, message) (SENT (snd (broadcast_message message w)))).
Proof.
  intros message w; split; [reflexivity | split; [reflexivity |]].
  intros [H _]; vm_compute in H; discriminate H.
Qed.

(** Witness of [on_close_not_registered]: the second of two calls. *)
Lemma on_close_not_registered_witness :
  let w := sample [client1; client2] [] [] in
  let w1 := snd (on_close client1 w) in
  fst (on_close client1 w) = Ok tt
  /\ CLIENTS w1 = [client2]
  /\ fst (on_close client1 w1) = Raise ValueError
  /\ CLIENTS (snd (on_close client1 w1)) = [client2].
Proof.
  intros w w1.
  assert (Hnin : ~ In client1 (CLIENTS w1)).
  { intros [H | []]; discriminate H. }
  destruct (on_close_not_registered client1 w1 Hnin) as [E Hc].
  split; [reflexivity | split; [reflexivity | split]].
  - rewrite E; reflexivity.
  - rewrite Hc; reflexivity.
Defined.

(** Counterexample to C8 as stated: the second [on_close] of a session
    raises. *)
Lemma on_close_twice_raises :
  let w := sample [client1; client2] [] [] in
  let w1 := snd (on_close client1 w) in
  fst (on_close client1 w1) = Raise ValueError
  /\ ~ (fst (on_close client1 w1) = Ok tt).
Proof.
  intros w w1; split; [reflexivity |].
  intros H; vm_compute in H; discriminate H.
Qed.

(** *** Sequences of events *)

Section Sequences.
Context {printer : PrinterState}.

(** Destructs what the goal matches on, until nothing is left. *)
Ltac cases :=
  repeat match goal with
         | |- context [match ?x with _ => _ end] =>
             lazymatch x with
             | context [match _ with _ => _ end] => fail
             | _ => destruct x eqn:?; simpl
             end
         end.

(** The reducer writes to the cache and to the log only. *)
Lemma process_event_frame (event : pyval) (w : world) :
  exists c lg, snd (process_event event w) = with_LOGGER lg (with_PRINTER c w).
Proof.
  destruct w.
  unfold process_event, try_except, bind, lift, ret, set_state, State_of,
    set_cache_temp, set_cache_progress, LOGGER_error, emit, modify, getitem;
    simpl.
  cases; do 2 eexists; unfold with_LOGGER, with_PRINTER; simpl; reflexivity.
Qed.

(** After the reducer the cached progress is what it was, or the params of
    the progress event just handled. *)
Lemma process_event_progress_cases (event : pyval) (w : world) :
  progress (PRINTER (snd (process_event event w))) = progress (PRINTER w)
  \/ exists d p,
      event = PDict d
      /\ dict_get (str "method") d = Some (PStr (str "progress"))
      /\ dict_get (str "params") d = Some p
      /\ progress (PRINTER (snd (process_event event w))) = p.
Proof.
  destruct event as [| | | | | |d]; try (left; reflexivity).
  destruct (dict_get (str "method") d) as [m|] eqn:Hm;
    [| left; rewrite process_event_no_method by exact Hm; reflexivity].
  destruct (eq_str m (str "state")) eqn:Hs.
  - left.
    unfold process_event, try_except, bind, lift, ret, set_state, State_of,
      LOGGER_error, emit, modify, getitem; simpl.
    rewrite Hm, Hs; cases; reflexivity.
  - destruct (eq_str m (str "temp")) eqn:Ht.
    + left.
      unfold process_event, try_except, bind, lift, ret, set_cache_temp,
        LOGGER_error, emit, modify, getitem; simpl.
      rewrite Hm, Hs, Ht; cases; reflexivity.
    + destruct (eq_str m (str "progress")) eqn:Hp.
      * destruct (dict_get (str "params") d) as [p|] eqn:Hpar.
        -- right; exists d, p.
           rewrite (process_event_progress d m p w Hm Hs Ht Hp Hpar).
           apply eq_str_true in Hp; subst m; auto.
        -- left; rewrite (process_event_no_params d m w Hm) by auto.
           reflexivity.
      * left; rewrite (process_event_skip d m w Hm Hs Ht Hp); reflexivity.
Qed.

(** C9 (amended): the reducer stores the counters of a progress event as
    they come.  Whenever the cached progress is consistent before a sequence
    of events and the params of every progress event of the sequence are
    consistent, the cached progress is consistent after the sequence. *)
Theorem process_events_progress_ok (events : list pyval) (w : world) :
  progress_ok (progress (PRINTER w)) = true ->
  (forall d p,
      In (PDict d) events ->
      dict_get (str "method") d = Some (PStr (str "progress")) ->
      dict_get (str "params") d = Some p ->
      progress_ok p = true) ->
  progress_ok (progress (PRINTER (process_events events w))) = true.
Proof.
  revert w; induction events as [|event events IH]; intros w Hw Hall;
    simpl; [exact Hw |].
  apply IH.
  - destruct (process_event_progress_cases event w)
      as [-> | (d & p & -> & Hm & Hp & ->)]; [exact Hw |].
    apply (Hall d p); auto; left; reflexivity.
  - intros d p Hin; apply Hall; right; exact Hin.
Qed.

End Sequences.

(** Witness of [process_events_progress_ok]. *)
Lemma process_events_progress_ok_witness :
  let events := [event_of "progress" [(str "current", PInt 1);
                                      (str "total", PInt 4)];
                 event_of "zchange" [];
                 event_of "progress" [(str "current", PInt 4);
                                      (str "total", PInt 4)]] in
  progress_ok (progress (PRINTER (process_events events (sample [] [] []))))
  = true.
Proof.
  intros events.
  apply (process_events_progress_ok events (sample [] [] []));
    [reflexivity |].
  intros d p [H | [H | [H | []]]] Hm Hp; inversion H; subst d;
    vm_compute in Hp; inversion Hp; reflexivity.
Defined.

(** Counterexample to C9 as stated: one progress event with [current]
    above [total]. *)
Lemma progress_bound_broken :
  let event := event_of "progress" [(str "current", PInt 5);
                                    (str "total", PInt 3)] in
  let w := process_events [event] (sample [] [] []) in
  progress_ok (progress (PRINTER w)) = false
  /\ exists current total,
      getitem (progress (PRINTER w)) (str "current") = Ok (PInt current)
      /\ getitem (progress (PRINTER w)) (str "total") = Ok (PInt total)
      /\ total > 0
      /\ ~ current <= total.
Proof.
  intros event w; split; [reflexivity |].
  exists 5, 3; repeat split; try reflexivity; lia.
Qed.

(** *** The periodic callback *)

Section PollLoop.
Context {printer : PrinterState}.

Lemma tick_empty (w : world) :
  FROM_PRINTER w = [] -> process_printer_events w = (Ok tt, w).
Proof. intros E; unfold process_printer_events; rewrite E; reflexivity. Qed.

(** A text that is no JSON document: [ValueError] passes the handler for
    [TypeError]; the item is gone from the queue and nothing is logged. *)
Lemma tick_decode_error (w : world) (item : pyval) (rest : list pyval) :
  FROM_PRINTER w = item :: rest ->
  Json.loads item = Raise ValueError ->
  process_printer_events w = (Raise ValueError, with_FROM_PRINTER rest w).
Proof.
  intros E Hl; unfold process_printer_events; rewrite E.
  unfold try_except, bind, modify, lift; rewrite Hl; reflexivity.
Qed.

(** An item that is no text: the handler logs the [TypeError]. *)
Lemma tick_not_text (w : world) (item : pyval) (rest : list pyval) :
  FROM_PRINTER w = item :: rest ->
  Json.loads item = Raise TypeError ->
  process_printer_events w
  = (Ok tt,
     with_LOGGER (LOGGER w ++ [exception_record TypeError])
       (with_FROM_PRINTER rest w)).
Proof.
  intros E Hl; unfold process_printer_events; rewrite E.
  unfold try_except, bind, modify, lift; rewrite Hl; reflexivity.
Qed.

(** An event that is not a log message: the broadcast, then the reducer. *)
Lemma tick_event (w : world) (item : pyval) (rest : list pyval)
      (event m : pyval) :
  FROM_PRINTER w = item :: rest ->
  Json.loads item = Ok event ->
  getitem event (str "method") = Ok m ->
  eq_str m (str "log") = false ->
  process_printer_events w
  = try_except
      (bind (broadcast_message event) (fun _ => process_event event))
      TypeError (fun e => LOGGER_exception e) (with_FROM_PRINTER rest w).
Proof.
  intros E Hl Hm Hlog; unfold process_printer_events; rewrite E.
  unfold try_except, bind at 1 2 3, modify, lift.
  rewrite Hl, Hm, Hlog; reflexivity.
Qed.

(** A log message goes to the logger and nowhere else. *)
Lemma tick_log (w : world) (item : pyval) (rest : list pyval)
      (event m : pyval) :
  FROM_PRINTER w = item :: rest ->
  Json.loads item = Ok event ->
  getitem event (str "method") = Ok m ->
  eq_str m (str "log") = true ->
  exists r lg,
    process_printer_events w
    = (r, with_LOGGER lg (with_FROM_PRINTER rest w)).
Proof.
  intros E Hl Hm Hlog; unfold process_printer_events; rewrite E.
  unfold try_except, bind, modify, lift, LOGGER_log, LOGGER_exception, emit,
    raise, modify.
  rewrite Hl, Hm, Hlog; simpl.
  destruct w; simpl.
  repeat match goal with
         | |- context [match ?x with _ => _ end] =>
             lazymatch x with
             | context [match _ with _ => _ end] => fail
             | _ => destruct x eqn:?; simpl
             end
         end;
    do 2 eexists; unfold with_LOGGER, with_FROM_PRINTER; simpl; reflexivity.
Qed.

Lemma tick_log_record (w : world) (item : pyval) (rest : list pyval)
      (event m p level msg : pyval) (n : Z) :
  FROM_PRINTER w = item :: rest ->
  Json.loads item = Ok event ->
  getitem event (str "method") = Ok m ->
  eq_str m (str "log") = true ->
  getitem event (str "params") = Ok p ->
  getitem p (str "level") = Ok level ->
  getitem p (str "msg") = Ok msg ->
  as_int level = Some n ->
  process_printer_events w
  = (Ok tt,
     with_LOGGER (LOGGER w ++ [{| levelno := n; message := Plain msg |}])
       (with_FROM_PRINTER rest w)).
Proof.
  intros E Hl Hm Hlog Hp Hlevel Hmsg Hn.
  unfold process_printer_events; rewrite E.
  unfold try_except, bind, modify, lift, LOGGER_log.
  rewrite Hl, Hm, Hlog, Hp, Hlevel, Hmsg, Hn; reflexivity.
Qed.

(** A run of the callback on a queue that is not empty takes exactly the
    first item off the queue, whatever the item. *)
Lemma tick_dequeues (w : world) (item : pyval) (rest : list pyval) :
  FROM_PRINTER w = item :: rest ->
  FROM_PRINTER (snd (process_printer_events w)) = rest.
Proof.
  intros E.
  destruct (Json.loads item) as [event|e] eqn:Hl.
  - destruct (getitem event (str "method")) as [m|e] eqn:Hm.
    + destruct (eq_str m (str "log")) eqn:Hlog.
      * destruct (tick_log w item rest event m E Hl Hm Hlog)
          as (r & lg & ->); reflexivity.
      * rewrite (tick_event w item rest event m E Hl Hm Hlog).
        unfold try_except, bind.
        destruct (broadcast_message_frame event (with_FROM_PRINTER rest w))
          as [sent Hb].
        destruct (broadcast_message event (with_FROM_PRINTER rest w))
          as [[[]|e] w2]; simpl in Hb; subst w2.
        -- match goal with
           | |- context [process_event event ?w2] =>
               destruct (process_event_frame event w2) as (c & lg & Hp);
               destruct (process_event event w2) as [[[]|e] w3]
           end; simpl in Hp; subst w3; [reflexivity |].
           destruct (exn_eqb e TypeError); reflexivity.
        -- destruct (exn_eqb e TypeError); reflexivity.
    + unfold process_printer_events; rewrite E.
      unfold try_except, bind, modify, lift; rewrite Hl, Hm.
      destruct (exn_eqb e TypeError); reflexivity.
  - unfold process_printer_events; rewrite E.
    unfold try_except, bind, modify, lift; rewrite Hl.
    destruct (exn_eqb e TypeError); reflexivity.
Qed.

(** C5 (amended): a run of the callback on a queue that is not empty takes
    exactly one item off the queue.  When the item decodes to an event whose
    method is 'log', nothing is sent to a session and the cache is
    unchanged; with a level and a msg in its params the one effect is the
    record handed to the logger.  For every other method the raw event is
    first sent to every registered session, in the order of the registry,
    and the reducer runs after that on the same event, provided no
    registered session is closed; when one is, [WebSocketClosedError] leaves
    the callback at the first closed session and the reducer does not run:
    the cache is unchanged. *)
Theorem process_printer_events_routing (w : world) (item : pyval)
        (rest : list pyval) (event m : pyval) :
  FROM_PRINTER w = item :: rest ->
  Json.loads item = Ok event ->
  getitem event (str "method") = Ok m ->
  let w1 := with_FROM_PRINTER rest w in
  FROM_PRINTER (snd (process_printer_events w)) = rest
  /\ (eq_str m (str "log") = true ->
      SENT (snd (process_printer_events w)) = SENT w
      /\ PRINTER (snd (process_printer_events w)) = PRINTER w
      /\ forall p level msg n,
          getitem event (str "params") = Ok p ->
          getitem p (str "level") = Ok level ->
          getitem p (str "msg") = Ok msg ->
          as_int level = Some n ->
          process_printer_events w
          = (Ok tt,
             with_LOGGER
               (LOGGER w ++ [{| levelno := n; message := Plain msg |}]) w1))
  /\ (eq_str m (str "log") = false ->
      (forall h, In h (CLIENTS w) -> is_closed h w = false) ->
      process_printer_events w
      = try_except (process_event event) TypeError
          (fun e => LOGGER_exception e)
          (with_SENT (SENT w ++ copies event (CLIENTS w)) w1))
  /\ (eq_str m (str "log") = false ->
      forall l1 h l2,
        CLIENTS w = l1 ++ h :: l2 ->
        (forall x, In x l1 -> is_closed x w = false) ->
        is_closed h w = true ->
        process_printer_events w
        = (Raise WebSocketClosedError,
           with_SENT (SENT w ++ copies event l1) w1)
        /\ PRINTER (snd (process_printer_events w)) = PRINTER w).
Proof.
  intros E Hl Hm w1.
  split; [apply (tick_dequeues w item rest E) |].
  split; [| split].
  - intros Hlog.
    destruct (tick_log w item rest event m E Hl Hm Hlog) as (r & lg & Ht).
    split; [rewrite Ht; reflexivity |].
    split; [rewrite Ht; reflexivity |].
    intros p level msg n Hp Hlevel Hmsg Hn.
    apply (tick_log_record w item rest event m p level msg n); assumption.
  - intros Hlog Hopen.
    rewrite (tick_event w item rest event m E Hl Hm Hlog).
    unfold try_except, bind, broadcast_message.
    fold w1; change (CLIENTS w1) with (CLIENTS w).
    rewrite (for_each_write_open event (CLIENTS w) w1) by exact Hopen.
    reflexivity.
  - intros Hlog l1 h l2 Ec Hopen Hclosed.
    assert (Ht : process_printer_events w
                 = (Raise WebSocketClosedError,
                    with_SENT (SENT w ++ copies event l1) w1)).
    { rewrite (tick_event w item rest event m E Hl Hm Hlog).
      unfold try_except, bind, broadcast_message.
      fold w1; change (CLIENTS w1) with (CLIENTS w); rewrite Ec.
      rewrite (for_each_write_closed event l1 l2 h w1) by assumption.
      reflexivity. }
    rewrite Ht; split; reflexivity.
Qed.

End PollLoop.

(** Witness of [process_printer_events_routing]: a 'temp' event with two
    open sessions registered. *)
Lemma process_printer_events_routing_witness :
  let params := PDict [(str "bed", PInt 60); (str "nozzle1", PInt 0);
                       (str "nozzle2", PInt 0)] in
  let event := PDict [(str "method", PStr (str "temp"));
                      (str "params", params)] in
  let w := sample [client1; client2] [] [Json.dumps event] in
  Json.loads (Json.dumps event) = Ok event
  /\ FROM_PRINTER (snd (process_printer_events w)) = []
  /\ process_printer_events w
     = (Ok tt,
        with_PRINTER {| state := state (PRINTER w); temp := params;
                        progress := progress (PRINTER w) |}
          (with_SENT [(client1, event); (client2, event)]
             (with_FROM_PRINTER [] w))).
Proof.
  intros params event w.
  assert (Hl : Json.loads (Json.dumps event) = Ok event)
    by (vm_compute; reflexivity).
  destruct (process_printer_events_routing w (Json.dumps event) [] event
              (PStr (str "temp")) eq_refl Hl eq_refl)
    as (Hq & _ & Hev & _).
  split; [exact Hl | split; [exact Hq |]].
  rewrite Hev; [reflexivity | reflexivity | intros h Hin; reflexivity].
Defined.

(** Counterexample to C5 as stated: a 'temp' event while the one registered
    session is closed.  The send raises, the exception leaves the callback
    and the reducer, which would have stored the temperatures, is not
    run. *)
Lemma reducer_skipped_after_failed_send :
  let params := PDict [(str "bed", PInt 60); (str "nozzle1", PInt 0);
                       (str "nozzle2", PInt 0)] in
  let event := PDict [(str "method", PStr (str "temp"));
                      (str "params", params)] in
  let w := sample [client1] [client1] [Json.dumps event] in
  Json.loads (Json.dumps event) = Ok event
  /\ process_printer_events w
     = (Raise WebSocketClosedError, with_FROM_PRINTER [] w)
  /\ temp (PRINTER (snd (process_event event w))) = params
  /\ temp (PRINTER (snd (process_printer_events w))) <> params.
Proof.
  intros params event w.
  split; [vm_compute; reflexivity |].
  split; [vm_compute; reflexivity |].
  split; [reflexivity |].
  vm_compute; intros H; discriminate H.
Qed.

(** C3, on the code: a 'state' event whose value is no member of the
    enumeration.  [State(value)] raises [ValueError]; the reducer catches
    [KeyError] only and the callback [TypeError] only, so the exception
    leaves both, after the broadcast, and nothing is logged.  The cache is
    unchanged. *)
Theorem unknown_state_value_escapes :
  let event := event_of "state" [(str "new", PStr (str "melting"))] in
  let w := sample [client1] [] [Json.dumps event] in
  Json.loads (Json.dumps event) = Ok event
  /\ process_event event w = (Raise ValueError, w)
  /\ process_printer_events w
     = (Raise ValueError,
        with_SENT [(client1, event)] (with_FROM_PRINTER [] w))
  /\ LOGGER (snd (process_printer_events w)) = [].
Proof.
  intros event w; repeat split; vm_compute; reflexivity.
Qed.

(** C4, on the code: an item that is a text but no JSON document.
    [json.loads] raises [ValueError]; the callback catches [TypeError] only,
    so the exception leaves it and nothing is logged.  The item is gone
    from the queue; cache and registry are unchanged. *)
Theorem non_json_payload_escapes :
  let item := PStr (str "ok T:210 /210 B:60") in
  let w := sample [client1] [] [item] in
  Json.loads item = Raise ValueError
  /\ process_printer_events w = (Raise ValueError, with_FROM_PRINTER [] w)
  /\ LOGGER (snd (process_printer_events w)) = [].
Proof.
  intros item w; repeat split; vm_compute; reflexivity.
Qed.

(** *** Commands *)

Section Commands.
Context {printer : PrinterState}.


End Commands.

(** The call of the unit tests, and a call that leaves the bed out: what the
    printer reads back from the queue. *)
Example set_temp_all_given :
  let message := PDict [(str "method", PStr (str "set_temp"));
                        (str "params", PDict [(str "bed", PInt 100);
                                              (str "nozzle1", PInt 200);
                                              (str "nozzle2", PInt 200)])] in
  exists item,
    set_temp (Some (PInt 100)) (Some (PInt 200)) (Some (PInt 200))
      (sample [] [] [])
    = (Ok (PBool true), with_TO_PRINTER [item] (sample [] [] []))
    /\ Json.loads item = Ok message.
Proof. eexists; split; vm_compute; reflexivity. Qed.

Example set_temp_bed_left_out :
  let message := PDict [(str "method", PStr (str "set_temp"));
                        (str "params", PDict [(str "bed", PNone);
                                              (str "nozzle1", PInt 200);
                                              (str "nozzle2", PInt 200)])] in
  exists item,
    set_temp None (Some (PInt 200)) (Some (PInt 200)) (sample [] [] [])
    = (Ok (PBool true), with_TO_PRINTER [item] (sample [] [] []))
    /\ Json.loads item = Ok message.
Proof. eexists; split; vm_compute; reflexivity. Qed.

(** *** Invariants of the callback *)

Section Ticks.
Context {printer : PrinterState}.

(** After a run of the callback the cache is what it was, or what the
    reducer made of it for the event decoded from the first item. *)
Lemma tick_cache_cases (w : world) :
  PRINTER (snd (process_printer_events w)) = PRINTER w
  \/ exists item rest event w2,
      FROM_PRINTER w = item :: rest
      /\ Json.loads item = Ok event
      /\ PRINTER w2 = PRINTER w
      /\ PRINTER (snd (process_printer_events w))
         = PRINTER (snd (process_event event w2)).
Proof.
  destruct (FROM_PRINTER w) as [|item rest] eqn:E;
    [left; rewrite (tick_empty w E); reflexivity |].
  destruct (Json.loads item) as [event|e] eqn:Hl.
  - destruct (getitem event (str "method")) as [m|e] eqn:Hm.
    + destruct (eq_str m (str "log")) eqn:Hlog.
      * left; destruct (tick_log w item rest event m E Hl Hm Hlog)
          as (r & lg & ->); reflexivity.
      * rewrite (tick_event w item rest event m E Hl Hm Hlog).
        unfold try_except, bind.
        destruct (broadcast_message_frame event (with_FROM_PRINTER rest w))
          as [sent Hb].
        destruct (broadcast_message event (with_FROM_PRINTER rest w))
          as [[[]|e] w2]; simpl in Hb; subst w2.
        -- right.
           match goal with
           | |- context [process_event event ?w2] =>
               exists item, rest, event, w2;
               split; [reflexivity |]; split; [exact Hl |];
               split; [reflexivity |];
               destruct (process_event event w2) as [[[]|e] w3]
           end; [reflexivity |].
           destruct (exn_eqb e TypeError); reflexivity.
        -- left; destruct (exn_eqb e TypeError); reflexivity.
    + left; unfold process_printer_events; rewrite E.
      unfold try_except, bind, modify, lift; rewrite Hl, Hm.
      destruct (exn_eqb e TypeError); reflexivity.
  - left; unfold process_printer_events; rewrite E.
    unfold try_except, bind, modify, lift; rewrite Hl.
    destruct (exn_eqb e TypeError); reflexivity.
Qed.

(** One run of the callback keeps the cached progress consistent when the
    item it takes off the queue is no progress event with inconsistent
    counters. *)
Lemma tick_progress_ok (w : world) :
  progress_ok (progress (PRINTER w)) = true ->
  (forall item rest d p,
      FROM_PRINTER w = item :: rest ->
      Json.loads item = Ok (PDict d) ->
      dict_get (str "method") d = Some (PStr (str "progress")) ->
      dict_get (str "params") d = Some p ->
      progress_ok p = true) ->
  progress_ok (progress (PRINTER (snd (process_printer_events w)))) = true.
Proof.
  intros Hw Hhead.
  destruct (tick_cache_cases w)
    as [-> | (item & rest & event & w2 & E & Hl & Hc & ->)]; [exact Hw |].
  destruct (process_event_progress_cases event w2)
    as [-> | (d & p & -> & Hm & Hp & ->)].
  - rewrite Hc; exact Hw.
  - apply (Hhead item rest d p); assumption.
Qed.

(** A state event with a value that is no member's, every registered
    session open: the event is broadcast, then the [ValueError] of the
    reducer leaves the callback. *)
Lemma tick_state_invalid (w : world) (item : pyval) (rest : list pyval)
      (d : list (pystr * pyval)) (p v : pyval) :
  FROM_PRINTER w = item :: rest ->
  Json.loads item = Ok (PDict d) ->
  dict_get (str "method") d = Some (PStr (str "state")) ->
  dict_get (str "params") d = Some p ->
  getitem p (str "new") = Ok v ->
  State_call v = None ->
  (forall h, In h (CLIENTS w) -> is_closed h w = false) ->
  process_printer_events w
  = (Raise ValueError,
     with_SENT (SENT w ++ copies (PDict d) (CLIENTS w))
       (with_FROM_PRINTER rest w)).
Proof.
  intros E Hl Hm Hp Hn Hv Hopen.
  rewrite (tick_event w item rest (PDict d) (PStr (str "state")) E Hl);
    [| simpl; rewrite Hm; reflexivity | reflexivity].
  unfold try_except, bind, broadcast_message.
  change (CLIENTS (with_FROM_PRINTER rest w)) with (CLIENTS w).
  rewrite (for_each_write_open (PDict d) (CLIENTS w)
             (with_FROM_PRINTER rest w)) by exact Hopen.
  rewrite (process_event_state_invalid d (PStr (str "state")) p v _ Hm
             eq_refl Hp Hn Hv).
  reflexivity.
Qed.

End Ticks.

(** The decoder on some texts. *)
Example decode_document :
  Json.decode (str " {" ++ quote (str "a") ++ str ": [1, -2, 3.5e+7, true, null], "
                 ++ quote (str "b") ++ str " : {}, "
                 ++ quote (str "a") ++ str ":" ++ quote (str "x\u00e9\n")
                 ++ str "} ")
  = Some (PDict [(str "a", PStr (str "x" ++ [233; 10]%N)); (str "b", PDict [])]).
Proof. vm_compute; reflexivity. Qed.

Example decode_rejects :
  map Json.decode
    [str ""; str "{"; str "[1,]"; str "[1 2]"; str "01"; str "1."; str "nul";
     str "1 2"; quote (str "\x"); str "{1: 2}"]
  = repeat None 10.
Proof. vm_compute; reflexivity. Qed.

(* ================================================================== *)
(** ** More of the server: errors, frames and the registry *)

Section ReducerMore.
Context {printer : PrinterState}.

Ltac cases :=
  repeat match goal with
         | |- context [match ?x with _ => _ end] =>
             lazymatch x with
             | context [match _ with _ => _ end] => fail
             | _ => destruct x eqn:?; simpl
             end
         end.

(** What the reducer does to the globals: a new cache, at most one more
    record at the end of the log. *)
Lemma process_event_effect (event : pyval) (w : world) :
  exists c lg,
    snd (process_event event w)
    = with_LOGGER (LOGGER w ++ lg) (with_PRINTER c w)
    /\ (lg = [] \/ lg = [malformed event]).
Proof.
  destruct w.
  unfold process_event, try_except, bind, lift, ret, set_state, State_of,
    set_cache_temp, set_cache_progress, LOGGER_error, emit, modify, getitem;
    simpl.
  cases;
    first [ exists PRINTER0, []; split; [| left; reflexivity];
            unfold with_LOGGER, with_PRINTER; simpl; rewrite app_nil_r;
            reflexivity
          | eexists _, []; split; [| left; reflexivity];
            unfold with_LOGGER, with_PRINTER; simpl; rewrite app_nil_r;
            reflexivity
          | exists PRINTER0; eexists; split;
            [reflexivity | right; reflexivity] ].
Qed.

(** An exception of the reducer is a [TypeError] or a [ValueError], and it
    leaves no trace. *)
Lemma process_event_raise (event : pyval) (w : world) (e : exn) :
  fst (process_event event w) = Raise e ->
  (e = TypeError \/ e = ValueError) /\ snd (process_event event w) = w.
Proof.
  unfold process_event, try_except, bind, lift, ret, set_state, State_of,
    set_cache_temp, set_cache_progress, LOGGER_error, emit, modify, getitem;
    simpl.
  cases; intros H; try discriminate H; inversion H; subst; auto.
Qed.

End ReducerMore.

Section TickMore.
Context {printer : PrinterState}.

Ltac cases :=
  repeat match goal with
         | |- context [match ?x with _ => _ end] =>
             lazymatch x with
             | context [match _ with _ => _ end] => fail
             | _ => destruct x eqn:?; simpl
             end
         end.

(** A broadcast reaches a front part of the registry, all of it open. *)
Lemma broadcast_message_effect (message : pyval) (w : world) :
  exists l1 l2,
    CLIENTS w = l1 ++ l2
    /\ (forall h, In h l1 -> is_closed h w = false)
    /\ snd (broadcast_message message w)
       = with_SENT (SENT w ++ copies message l1) w
    /\ (fst (broadcast_message message w) = Ok tt
        \/ fst (broadcast_message message w) = Raise WebSocketClosedError).
Proof.
  unfold broadcast_message.
  destruct (first_closed (CLIENTS w) w)
    as [Hall | (l1 & h & l2 & E & Hopen & Hclosed)].
  - exists (CLIENTS w), []; rewrite app_nil_r.
    rewrite for_each_write_open by exact Hall; auto.
  - exists l1, (h :: l2); rewrite E.
    rewrite for_each_write_closed by assumption; auto.
Qed.

Lemma ran_nothing (w : world) : ran (FROM_PRINTER w) (PRINTER w) [] [] w = w.
Proof. destruct w; unfold ran; simpl; rewrite !app_nil_r; reflexivity. Qed.

Lemma in_copies (message m : pyval) (h : handler) (l : list handler) :
  In (h, m) (copies message l) -> In h l /\ m = message.
Proof.
  unfold copies; rewrite in_map_iff; intros (x & Hx & Hin).
  inversion Hx; subst; auto.
Qed.

(** What one run of the callback does to the globals. *)
Lemma tick_effect (w : world) :
  exists c sent lg,
    snd (process_printer_events w)
    = ran (tl (FROM_PRINTER w)) c sent lg w
    /\ (List.length lg <= 1)%nat
    /\ (forall h m, In (h, m) sent ->
                    In h (CLIENTS w) /\ is_closed h w = false).
Proof.
  destruct (FROM_PRINTER w) as [|item rest] eqn:E.
  { rewrite (tick_empty w E).
    exists (PRINTER w), [], []; simpl; split; [| split; [lia | intros h m []]].
    rewrite <- E at 1; symmetry; apply ran_nothing. }
  assert (Hsame : forall lg,
             (List.length lg <= 1)%nat ->
             exists c sent lg0,
               with_LOGGER (LOGGER w ++ lg) (with_FROM_PRINTER rest w)
               = ran (tl (item :: rest)) c sent lg0 w
               /\ (List.length lg0 <= 1)%nat
               /\ (forall h m, In (h, m) sent ->
                               In h (CLIENTS w) /\ is_closed h w = false)).
  { intros lg Hlg; exists (PRINTER w), [], lg.
    split; [| split; [exact Hlg | intros h m []]].
    destruct w; unfold ran; simpl; rewrite app_nil_r; reflexivity. }
  assert (Hplain : with_FROM_PRINTER rest w
                   = with_LOGGER (LOGGER w ++ []) (with_FROM_PRINTER rest w)).
  { destruct w; unfold with_LOGGER; simpl; rewrite app_nil_r; reflexivity. }
  destruct (Json.loads item) as [event|e] eqn:Hl.
  - destruct (getitem event (str "method")) as [m|e] eqn:Hm.
    + destruct (eq_str m (str "log")) eqn:Hlog.
      * unfold process_printer_events; rewrite E.
        unfold try_except, bind, modify, lift, LOGGER_log, LOGGER_exception,
          emit, raise, modify.
        rewrite Hl, Hm, Hlog; simpl.
        cases;
          first [ rewrite Hplain; apply Hsame; simpl; lia
                | match goal with
                  | |- context [with_LOGGER (LOGGER _ ++ ?lg) _] =>
                      apply (Hsame lg); simpl; lia
                  end ].
      * rewrite (tick_event w item rest event m E Hl Hm Hlog).
        unfold try_except, bind.
        destruct (broadcast_message_effect event (with_FROM_PRINTER rest w))
          as (l1 & l2 & Ec & Hopen & Hs & Hr).
        assert (Hin : forall h m0, In (h, m0) (copies event l1) ->
                                   In h (CLIENTS w) /\ is_closed h w = false).
        { intros h m0 Hhm; apply in_copies in Hhm; destruct Hhm as [Hh _].
          split; [| apply (Hopen h Hh)].
          change (CLIENTS w) with (CLIENTS (with_FROM_PRINTER rest w)).
          rewrite Ec; apply in_or_app; left; exact Hh. }
        destruct (broadcast_message event (with_FROM_PRINTER rest w))
          as [[[]|e] w2]; simpl in Hs, Hr; subst w2.
        -- match goal with
           | |- context [process_event event ?w2] =>
               destruct (process_event_effect event w2) as (c & lg & Hp & Hlg);
               pose proof (process_event_raise event w2) as Hraise;
               destruct (process_event event w2) as [[[]|e] w3]
           end; simpl in Hp, Hraise.
           ++ exists c, (copies event l1), lg; simpl.
              split; [| split; [destruct Hlg as [-> | ->]; simpl; lia
                               | exact Hin]].
              rewrite Hp; destruct w; reflexivity.
           ++ destruct (Hraise e eq_refl) as [He Hw3].
              destruct (exn_eqb e TypeError).
              ** exists (PRINTER w), (copies event l1), [exception_record e].
                 simpl; split; [| split; [lia | exact Hin]].
                 rewrite Hw3; destruct w; reflexivity.
              ** exists (PRINTER w), (copies event l1), []; simpl.
                 split; [| split; [lia | exact Hin]].
                 rewrite Hw3; destruct w; unfold ran; simpl.
                 rewrite app_nil_r; reflexivity.
        -- destruct Hr as [Hr | Hr]; [discriminate Hr |].
           inversion Hr; subst e; simpl.
           exists (PRINTER w), (copies event l1), []; simpl.
           split; [| split; [lia | exact Hin]].
           destruct w; unfold ran; simpl; rewrite app_nil_r; reflexivity.
    + unfold process_printer_events; rewrite E.
      unfold try_except, bind, modify, lift, LOGGER_exception, emit, modify.
      rewrite Hl, Hm.
      destruct (exn_eqb e TypeError); simpl.
      * apply (Hsame [exception_record e]); simpl; lia.
      * rewrite Hplain; apply Hsame; simpl; lia.
  - unfold process_printer_events; rewrite E.
    unfold try_except, bind, modify, lift, LOGGER_exception, emit, modify.
    rewrite Hl.
    destruct (exn_eqb e TypeError); simpl.
    + apply (Hsame [exception_record e]); simpl; lia.
    + rewrite Hplain; apply Hsame; simpl; lia.
Qed.

End TickMore.

Section ReducerExtras.
Context {printer : PrinterState}.

(** X1: a 'state' event whose params.new is the value of a member of the
    enumeration stores that member as the cached state; temperatures,
    progress and every other global are unchanged and nothing is logged. *)
Theorem process_event_stores_state (d : list (pystr * pyval)) (p v : pyval)
        (s : State) (w : world) :
  dict_get (str "method") d = Some (PStr (str "state")) ->
  dict_get (str "params") d = Some p ->
  getitem p (str "new") = Ok v ->
  State_call v = Some s ->
  process_event (PDict d) w
  = (Ok tt, with_PRINTER {| state := s; temp := temp (PRINTER w);
                            progress := progress (PRINTER w) |} w).
Proof.
  intros Hm Hp Hn Hv.
  apply (process_event_state d _ p v s w Hm eq_refl Hp Hn Hv).
Qed.

(** X2: whenever the reducer raises, the exception is a [TypeError] or a
    [ValueError] (a [KeyError] never leaves it) and no global has changed:
    nothing is logged and the cache holds no partial update. *)
Theorem process_event_raises_cleanly (event : pyval) (w : world) (e : exn) :
  fst (process_event event w) = Raise e ->
  (e = TypeError \/ e = ValueError) /\ snd (process_event event w) = w.
Proof. apply process_event_raise. Qed.

(** X3: whatever the event, the reducer leaves the registry, both queues
    and the websockets alone, and adds to the log nothing or the one record
    of a malformed event. *)
Theorem process_event_writes_cache_and_log_only (event : pyval) (w : world) :
  let w' := snd (process_event event w) in
  CLIENTS w' = CLIENTS w
  /\ TO_PRINTER w' = TO_PRINTER w
  /\ FROM_PRINTER w' = FROM_PRINTER w
  /\ SENT w' = SENT w
  /\ WS_CLOSED w' = WS_CLOSED w
  /\ (LOGGER w' = LOGGER w \/ LOGGER w' = LOGGER w ++ [malformed event]).
Proof.
  destruct (process_event_effect event w) as (c & lg & E & Hlg).
  simpl; rewrite E; simpl; repeat split.
  destruct Hlg as [-> | ->]; [left; apply app_nil_r | right; reflexivity].
Qed.

End ReducerExtras.

(** Witness of [process_event_stores_state]: the printer starts to print. *)
Lemma process_event_stores_state_witness :
  let d := [(str "method", PStr (str "state"));
            (str "params", PDict [(str "new", PStr (str "printing"))])] in
  let w := sample [client1] [] [] in
  state (PRINTER (snd (process_event (PDict d) w))) = PRINTING
  /\ temp (PRINTER (snd (process_event (PDict d) w))) = temp (PRINTER w).
Proof.
  intros d w.
  rewrite (process_event_stores_state (printer := SpecState) d
             (PDict [(str "new", PStr (str "printing"))])
             (PStr (str "printing")) PRINTING w eq_refl eq_refl eq_refl
             eq_refl).
  split; reflexivity.
Defined.

(** Witness of [process_event_raises_cleanly]: an event that is a list. *)
Lemma process_event_raises_cleanly_witness :
  let w := sample [client1] [] [] in
  fst (process_event (PList [PInt 1]) w) = Raise TypeError
  /\ snd (process_event (PList [PInt 1]) w) = w.
Proof.
  intros w; split; [reflexivity |].
  apply (process_event_raises_cleanly (PList [PInt 1]) w TypeError eq_refl).
Defined.

Section TickExtras.
Context {printer : PrinterState}.

(** X4: a run of the callback takes the first item off [FROM_PRINTER], if
    there is one, however the run ends; it never changes the registry, the
    queue to the printer or the state of a connection; it only adds to what
    was sent and to the log, at most one record, and whatever it sends goes
    to a registered session whose connection is open. *)
Theorem process_printer_events_frame (w : world) :
  let w' := snd (process_printer_events w) in
  FROM_PRINTER w' = tl (FROM_PRINTER w)
  /\ CLIENTS w' = CLIENTS w
  /\ TO_PRINTER w' = TO_PRINTER w
  /\ WS_CLOSED w' = WS_CLOSED w
  /\ (exists sent,
        SENT w' = SENT w ++ sent
        /\ forall h m, In (h, m) sent ->
                       In h (CLIENTS w) /\ is_closed h w = false)
  /\ (exists lg, LOGGER w' = LOGGER w ++ lg /\ (List.length lg <= 1)%nat).
Proof.
  destruct (tick_effect w) as (c & sent & lg & E & Hlg & Hsent).
  simpl; rewrite E; simpl; repeat split.
  - exists sent; split; [reflexivity | exact Hsent].
  - exists lg; split; [reflexivity | exact Hlg].
Qed.

(** X6: an item that is not a text, or a text that decodes to a document
    that is not an object (a list, a number, a string, null): the
    [TypeError] is caught, the callback returns normally, the one effect
    besides taking the item is the record of the exception. *)
Theorem process_printer_events_logs_TypeError (w : world) (item : pyval)
        (rest : list pyval) :
  FROM_PRINTER w = item :: rest ->
  Json.loads item = Raise TypeError
  \/ (exists event,
         Json.loads item = Ok event
         /\ forall d, event <> PDict d) ->
  process_printer_events w
  = (Ok tt,
     with_LOGGER (LOGGER w ++ [exception_record TypeError])
       (with_FROM_PRINTER rest w)).
Proof.
  intros E [Hl | (event & Hl & Hnd)].
  - apply (tick_not_text w item rest E Hl).
  - unfold process_printer_events; rewrite E.
    unfold try_except, bind, modify, lift; rewrite Hl.
    destruct event; try reflexivity.
    exfalso; apply (Hnd items); reflexivity.
Qed.

(** X7: an event without the key 'method': the [KeyError] of the callback's
    own subscript leaves the callback; the event is not broadcast, nothing
    is logged and the cache is unchanged. *)
Theorem process_printer_events_no_method (w : world) (item : pyval)
        (rest : list pyval) (d : list (pystr * pyval)) :
  FROM_PRINTER w = item :: rest ->
  Json.loads item = Ok (PDict d) ->
  dict_get (str "method") d = None ->
  process_printer_events w = (Raise KeyError, with_FROM_PRINTER rest w).
Proof.
  intros E Hl Hm; unfold process_printer_events; rewrite E.
  unfold try_except, bind, modify, lift; rewrite Hl; simpl; rewrite Hm.
  reflexivity.
Qed.

(** X8: a 'log' event without params, or whose params is a dict without
    'level' or without 'msg': the [KeyError] leaves the callback and nothing
    is logged. *)
Theorem process_printer_events_log_missing_key (w : world) (item : pyval)
        (rest : list pyval) (d : list (pystr * pyval)) :
  FROM_PRINTER w = item :: rest ->
  Json.loads item = Ok (PDict d) ->
  dict_get (str "method") d = Some (PStr (str "log")) ->
  dict_get (str "params") d = None
  \/ (exists p,
         dict_get (str "params") d = Some (PDict p)
         /\ (dict_get (str "level") p = None
             \/ dict_get (str "msg") p = None)) ->
  process_printer_events w = (Raise KeyError, with_FROM_PRINTER rest w).
Proof.
  intros E Hl Hm Hmiss; unfold process_printer_events; rewrite E.
  unfold try_except, bind, modify, lift; rewrite Hl; simpl; rewrite Hm.
  change (eq_str (PStr (str "log")) (str "log")) with true; simpl.
  destruct Hmiss as [Hp | (p & Hp & [Hk | Hk])]; rewrite Hp; simpl;
    [reflexivity | rewrite Hk; reflexivity |].
  destruct (dict_get (str "level") p); rewrite ?Hk; reflexivity.
Qed.

(** X9: a 'log' event whose level is not an integer: [LOGGER.log] raises
    [TypeError], the callback catches it and logs the exception; the msg is
    not logged. *)
Theorem process_printer_events_log_bad_level (w : world) (item : pyval)
        (rest : list pyval) (d p : list (pystr * pyval)) (level msg : pyval) :
  FROM_PRINTER w = item :: rest ->
  Json.loads item = Ok (PDict d) ->
  dict_get (str "method") d = Some (PStr (str "log")) ->
  dict_get (str "params") d = Some (PDict p) ->
  dict_get (str "level") p = Some level ->
  dict_get (str "msg") p = Some msg ->
  as_int level = None ->
  process_printer_events w
  = (Ok tt,
     with_LOGGER (LOGGER w ++ [exception_record TypeError])
       (with_FROM_PRINTER rest w)).
Proof.
  intros E Hl Hm Hp Hlevel Hmsg Hint; unfold process_printer_events; rewrite E.
  unfold try_except, bind, modify, lift, LOGGER_log; rewrite Hl; simpl.
  rewrite Hm.
  change (eq_str (PStr (str "log")) (str "log")) with true; simpl.
  rewrite Hp; simpl; rewrite Hlevel, Hmsg, Hint; reflexivity.
Qed.

(** X10: an event the reducer finds malformed (a 'state' event whose params
    has no 'new', or a 'state', 'temp' or 'progress' event without params)
    has been sent to every registered session before the reducer logs it:
    with every connection open the callback returns normally, each session
    has been sent the raw event and the log has the one record. *)
Theorem process_printer_events_malformed_is_broadcast (w : world)
        (item : pyval) (rest : list pyval) (d : list (pystr * pyval)) :
  FROM_PRINTER w = item :: rest ->
  Json.loads item = Ok (PDict d) ->
  (exists p,
      dict_get (str "method") d = Some (PStr (str "state"))
      /\ dict_get (str "params") d = Some (PDict p)
      /\ dict_get (str "new") p = None)
  \/ (exists m,
         dict_get (str "method") d = Some (PStr m)
         /\ In m [str "state"; str "temp"; str "progress"]
         /\ dict_get (str "params") d = None) ->
  (forall h, In h (CLIENTS w) -> is_closed h w = false) ->
  process_printer_events w
  = (Ok tt,
     with_LOGGER (LOGGER w ++ [malformed (PDict d)])
       (with_SENT (SENT w ++ copies (PDict d) (CLIENTS w))
          (with_FROM_PRINTER rest w))).
Proof.
  intros E Hl Hmal Hopen.
  assert (Hm : exists m, dict_get (str "method") d = Some (PStr m)
                         /\ In m [str "state"; str "temp"; str "progress"]).
  { destruct Hmal as [(p & Hm & _) | (m & Hm & Hin & _)];
      [exists (str "state"); split; [exact Hm | left; reflexivity]
      | exists m; auto]. }
  destruct Hm as (m & Hm & Hin).
  rewrite (tick_event w item rest (PDict d) (PStr m) E Hl);
    [| simpl; rewrite Hm; reflexivity
     | simpl in Hin; destruct Hin as [<- | [<- | [<- | []]]]; reflexivity].
  unfold try_except, bind, broadcast_message.
  change (CLIENTS (with_FROM_PRINTER rest w)) with (CLIENTS w).
  rewrite (for_each_write_open (PDict d) (CLIENTS w)
             (with_FROM_PRINTER rest w)) by exact Hopen.
  match goal with
  | |- context [process_event (PDict d) ?w2] =>
      assert (Hpe : process_event (PDict d) w2
                    = (Ok tt,
                       with_LOGGER (LOGGER w2 ++ [malformed (PDict d)]) w2))
  end.
  { destruct Hmal as [(p & Hm' & Hp & Hn) | (m' & Hm' & Hin' & Hp)].
    - apply (process_event_state_no_new d p _ _ Hm'); auto.
    - apply (process_event_no_params d _ _ Hm'); auto.
      simpl in Hin'; destruct Hin' as [<- | [<- | [<- | []]]];
        rewrite !eq_str_PStr, pystr_eqb_refl; auto. }
  rewrite Hpe; reflexivity.
Qed.

(** X11: an item that [json.loads] rejects as no JSON document: the
    [ValueError] leaves the callback; the item is taken off the queue,
    nothing is logged, nothing is sent and the cache is unchanged. *)
Theorem process_printer_events_decode_error (w : world) (item : pyval)
        (rest : list pyval) :
  FROM_PRINTER w = item :: rest ->
  Json.loads item = Raise ValueError ->
  process_printer_events w = (Raise ValueError, with_FROM_PRINTER rest w).
Proof. intros E Hl; apply (tick_decode_error w item rest E Hl). Qed.

End TickExtras.

Section RegistryExtras.
Context {printer : PrinterState} {encoder : StateEncoder}.

Lemma list_remove_last (self : handler) (l : list handler) :
  ~ In self l -> list_remove self (l ++ [self]) = Some l.
Proof.
  intros Hnin.
  rewrite (list_remove_present self l [] Hnin), app_nil_r; reflexivity.
Qed.

(** What [open] does to the globals before the greeting is written. *)
Lemma open_unfold (self : handler) (w : world) :
  WebSocketHandler.open self w
  = write_message self
      (Json.dumps (WebSocketHandler.state_message (state (PRINTER w))))
      (with_CLIENTS (CLIENTS w ++ [self])
         (with_LOGGER (LOGGER w ++ [opened_record self]) w)).
Proof. reflexivity. Qed.

(** X12: [on_close] of a registered session removes its first entry from
    the registry and keeps every other session, in the same order; it logs
    the closing and changes nothing else. *)
Theorem on_close_removes_session (self : handler) (l1 l2 : list handler)
        (w : world) :
  CLIENTS w = l1 ++ self :: l2 ->
  ~ In self l1 ->
  on_close self w
  = (Ok tt,
     with_CLIENTS (l1 ++ l2)
       (with_LOGGER (LOGGER w ++ [closed_record self]) w)).
Proof. intros E Hnin; apply (on_close_registered self l1 l2 w E Hnin). Qed.

Lemma open_when_open (self : handler) (w : world) :
  is_closed self w = false ->
  WebSocketHandler.open self w
  = (Ok tt,
     with_SENT
       (SENT w ++ [(self, Json.dumps
                            (WebSocketHandler.state_message
                               (state (PRINTER w))))])
       (with_CLIENTS (CLIENTS w ++ [self])
          (with_LOGGER (LOGGER w ++ [opened_record self]) w))).
Proof.
  intros Hopen; rewrite open_unfold; unfold write_message.
  change (is_closed self _) with (is_closed self w); rewrite Hopen.
  reflexivity.
Qed.

Lemma open_when_closed (self : handler) (w : world) :
  is_closed self w = true ->
  WebSocketHandler.open self w
  = (Raise WebSocketClosedError,
     with_CLIENTS (CLIENTS w ++ [self])
       (with_LOGGER (LOGGER w ++ [opened_record self]) w)).
Proof.
  intros Hclosed; rewrite open_unfold; unfold write_message.
  change (is_closed self _) with (is_closed self w); rewrite Hclosed.
  reflexivity.
Qed.

(** X13: [open] puts the session at the end of the registry and, its
    connection being open, sends it one message and no other session any:
    the JSON text of the dict with cmd 'STATE' and the state cached at that
    moment.  Temperatures and progress are not sent. *)
Theorem open_registers_and_greets (self : handler) (w : world) :
  is_closed self w = false ->
  WebSocketHandler.open self w
  = (Ok tt,
     with_SENT
       (SENT w ++ [(self, Json.dumps
                            (PDict [(str "cmd", PStr (str "STATE"));
                                    (str "new",
                                     State_json (state (PRINTER w)))]))])
       (with_CLIENTS (CLIENTS w ++ [self])
          (with_LOGGER (LOGGER w ++ [opened_record self]) w))).
Proof. apply open_when_open. Qed.

(** X14: [open] registers the session before it writes to it: when the
    connection is already closed the write raises
    [WebSocketClosedError], nothing is sent, and the session is in the
    registry all the same. *)
Theorem open_on_closed_connection (self : handler) (w : world) :
  is_closed self w = true ->
  WebSocketHandler.open self w
  = (Raise WebSocketClosedError,
     with_CLIENTS (CLIENTS w ++ [self])
       (with_LOGGER (LOGGER w ++ [opened_record self]) w)).
Proof. apply open_when_closed. Qed.

(** X15: [open] and then [on_close] of a session that was not registered
    give back the registry as it was, whether the greeting could be
    written or not; [on_close] does not raise. *)
Theorem open_then_on_close (self : handler) (w : world) :
  ~ In self (CLIENTS w) ->
  let w1 := snd (WebSocketHandler.open self w) in
  fst (on_close self w1) = Ok tt
  /\ CLIENTS (snd (on_close self w1)) = CLIENTS w.
Proof.
  intros Hnin w1.
  assert (Hc : CLIENTS w1 = CLIENTS w ++ [self]).
  { unfold w1; destruct (is_closed self w) eqn:Hcl.
    - rewrite (open_when_closed self w Hcl); reflexivity.
    - rewrite (open_when_open self w Hcl); reflexivity. }
  rewrite (on_close_registered self (CLIENTS w) [] w1 Hc Hnin).
  rewrite app_nil_r; split; reflexivity.
Qed.

End RegistryExtras.

Section Independence.
Context {printer : PrinterState}.

Lemma ignores_ret {A : Type} (a : A) : ignores_TO_PRINTER (ret a).
Proof. intros x w; reflexivity. Qed.

Lemma ignores_raise {A : Type} (e : exn) : ignores_TO_PRINTER (@raise _ A e).
Proof. intros x w; reflexivity. Qed.

Lemma ignores_lift {A : Type} (r : result A) : ignores_TO_PRINTER (lift r).
Proof. intros x w; reflexivity. Qed.

Lemma ignores_bind {A B : Type} (m : M A) (k : A -> M B) :
  ignores_TO_PRINTER m ->
  (forall a, ignores_TO_PRINTER (k a)) ->
  ignores_TO_PRINTER (bind m k).
Proof.
  intros Hm Hk x w; unfold bind; rewrite Hm.
  destruct (m w) as [[a|e] w1]; simpl; [apply Hk | reflexivity].
Qed.

Lemma ignores_try_except {A : Type} (body : M A) (cls : exn)
      (handle : exn -> M A) :
  ignores_TO_PRINTER body ->
  (forall e, ignores_TO_PRINTER (handle e)) ->
  ignores_TO_PRINTER (try_except body cls handle).
Proof.
  intros Hb Hh x w; unfold try_except; rewrite Hb.
  destruct (body w) as [[a|e] w1]; simpl; [reflexivity |].
  destruct (exn_eqb e cls); [apply Hh | reflexivity].
Qed.

Lemma ignores_emit (r : log_record) : ignores_TO_PRINTER (emit r).
Proof. intros x w; reflexivity. Qed.

Lemma ignores_write_message (self : handler) (message : pyval) :
  ignores_TO_PRINTER (write_message self message).
Proof.
  intros x w; unfold write_message.
  change (is_closed self (with_TO_PRINTER x w)) with (is_closed self w).
  destruct (is_closed self w); reflexivity.
Qed.

Lemma ignores_for_each {A : Type} (l : list A) (body : A -> M unit) :
  (forall a, ignores_TO_PRINTER (body a)) ->
  ignores_TO_PRINTER (for_each l body).
Proof.
  intros Hb; induction l as [|a l IH]; simpl;
    [apply ignores_ret | apply ignores_bind; auto].
Qed.

Lemma ignores_broadcast_message (message : pyval) :
  ignores_TO_PRINTER (broadcast_message message).
Proof.
  intros x w; unfold broadcast_message.
  change (CLIENTS (with_TO_PRINTER x w)) with (CLIENTS w).
  apply ignores_for_each; intros a; apply ignores_write_message.
Qed.

Lemma ignores_process_event (event : pyval) :
  ignores_TO_PRINTER (process_event event).
Proof.
  unfold process_event.
  apply ignores_try_except; [| intros e x w; reflexivity].
  repeat first [ apply ignores_bind; [apply ignores_lift | intros ?]
               | match goal with
                 | |- ignores_TO_PRINTER (if ?b then _ else _) => destruct b
                 end
               | apply ignores_ret
               | intros x w; reflexivity ].
Qed.

Lemma ignores_process_printer_events :
  ignores_TO_PRINTER process_printer_events.
Proof.
  intros x w; unfold process_printer_events.
  change (FROM_PRINTER (with_TO_PRINTER x w)) with (FROM_PRINTER w).
  destruct (FROM_PRINTER w) as [|item rest]; [reflexivity |].
  apply ignores_try_except;
    [| intros e; apply ignores_emit].
  apply ignores_bind; [intros y v; reflexivity | intros _].
  apply ignores_bind; [apply ignores_lift | intros event].
  apply ignores_bind; [apply ignores_lift | intros m].
  destruct (eq_str m (str "log")).
  - repeat (apply ignores_bind; [apply ignores_lift | intros ?]).
    unfold LOGGER_log; destruct (as_int _);
      [apply ignores_emit | apply ignores_raise].
  - apply ignores_bind;
      [apply ignores_broadcast_message | intros _; apply ignores_process_event].
Qed.

(** X16: a command and a run of the callback do not interfere.  The
    callback neither reads nor writes [TO_PRINTER] and [set_temp] touches
    nothing else, so a [set_temp] before the run and the same [set_temp]
    after it leave the same globals, and the run ends the same way. *)
Theorem set_temp_commutes_with_process_printer_events
        (bed nozzle1 nozzle2 : option pyval) (w : world) :
  let before := snd (set_temp bed nozzle1 nozzle2 w) in
  fst (process_printer_events before) = fst (process_printer_events w)
  /\ snd (process_printer_events before)
     = snd (set_temp bed nozzle1 nozzle2 (snd (process_printer_events w)))
  /\ TO_PRINTER (snd (process_printer_events w)) = TO_PRINTER w.
Proof.
  destruct (tick_effect w) as (c & sent & lg & E & _).
  simpl; unfold set_temp, bind, TO_PRINTER_put, modify, ret; simpl.
  rewrite ignores_process_printer_events; simpl.
  rewrite E; repeat split.
Qed.

End Independence.

Section DeliveryExtras.
Context {printer : PrinterState} {encoder : StateEncoder}.

(** X17: a broadcast sends the message to registered sessions with an open
    connection and to no one else: whatever is in [SENT] after it was there
    before or is the message, for such a session. *)
Theorem broadcast_message_recipients (message : pyval) (w : world)
        (h : handler) (m : pyval) :
  In (h, m) (SENT (snd (broadcast_message message w))) ->
  In (h, m) (SENT w)
  \/ (m = message /\ In h (CLIENTS w) /\ is_closed h w = false).
Proof.
  destruct (broadcast_message_effect message w)
    as (l1 & l2 & Ec & Hopen & -> & _); simpl.
  intros Hin; apply in_app_or in Hin; destruct Hin as [Hin | Hin];
    [left; exact Hin | right].
  apply in_copies in Hin; destruct Hin as [Hh ->].
  repeat split; [rewrite Ec; apply in_or_app; left; exact Hh | auto].
Qed.

(** X18: after [on_close] has removed a session from the registry, no run
    of the callback and no broadcast sends it anything more. *)
Theorem on_close_ends_delivery (self : handler) (l1 l2 : list handler)
        (w : world) :
  CLIENTS w = l1 ++ self :: l2 ->
  ~ In self l1 ->
  ~ In self l2 ->
  let w1 := snd (on_close self w) in
  forall m,
    (In (self, m) (SENT (snd (process_printer_events w1))) ->
     In (self, m) (SENT w))
    /\ (forall message,
           In (self, m) (SENT (snd (broadcast_message message w1))) ->
           In (self, m) (SENT w)).
Proof.
  intros E Hn1 Hn2 w1 m.
  assert (Hw1 : w1 = with_CLIENTS (l1 ++ l2)
                       (with_LOGGER (LOGGER w ++ [closed_record self]) w)).
  { unfold w1; rewrite (on_close_registered self l1 l2 w E Hn1); reflexivity. }
  assert (Hout : ~ In self (CLIENTS w1)).
  { rewrite Hw1; simpl; intros Hin; apply in_app_or in Hin; tauto. }
  assert (Hs : SENT w1 = SENT w) by (rewrite Hw1; reflexivity).
  split.
  - destruct (tick_effect w1) as (c & sent & lg & -> & _ & Hsent); simpl.
    rewrite Hs; intros Hin; apply in_app_or in Hin.
    destruct Hin as [Hin | Hin]; [exact Hin |].
    exfalso; apply Hout; apply (Hsent self m Hin).
  - intros message.
    destruct (broadcast_message_effect message w1)
      as (k1 & k2 & Ec & _ & -> & _); simpl.
    rewrite Hs; intros Hin; apply in_app_or in Hin.
    destruct Hin as [Hin | Hin]; [exact Hin |].
    exfalso; apply Hout; rewrite Ec; apply in_or_app; left.
    apply (in_copies message m self k1 Hin).
Qed.

(** X19: a session that joins is sent the greeting with the cached state
    before any event: with every connection open, after [open] and a
    broadcast the new session has been sent the greeting and then the
    message, the sessions registered before it the message only. *)
Theorem open_then_broadcast_message (self : handler) (message : pyval)
        (w : world) :
  is_closed self w = false ->
  (forall h, In h (CLIENTS w) -> is_closed h w = false) ->
  let w1 := snd (WebSocketHandler.open self w) in
  fst (broadcast_message message w1) = Ok tt
  /\ SENT (snd (broadcast_message message w1))
     = SENT w
       ++ [(self, Json.dumps (WebSocketHandler.state_message
                                (state (PRINTER w))))]
       ++ copies message (CLIENTS w)
       ++ [(self, message)].
Proof.
  intros Hself Hopen w1.
  unfold w1; rewrite (open_when_open self w Hself); simpl.
  unfold broadcast_message; simpl.
  rewrite for_each_write_open.
  - simpl; split; [reflexivity |].
    unfold copies; rewrite map_app, <- !app_assoc; reflexivity.
  - intros h Hin; apply in_app_or in Hin.
    destruct Hin as [Hin | [<- | []]]; [apply (Hopen h Hin) | exact Hself].
Qed.

End DeliveryExtras.

(** Witness of [process_printer_events_logs_TypeError]: a JSON list. *)
Lemma process_printer_events_logs_TypeError_witness :
  let item := PStr (str "[1, 2]") in
  let w := sample [client1] [] [item] in
  process_printer_events w
  = (Ok tt, with_LOGGER [exception_record TypeError] (with_FROM_PRINTER [] w)).
Proof.
  intros item w.
  apply (process_printer_events_logs_TypeError w item [] eq_refl).
  right; exists (PList [PInt 1; PInt 2]); split;
    [vm_compute; reflexivity | discriminate].
Defined.

(** Witness of [process_printer_events_no_method]: an object with params
    only. *)
Lemma process_printer_events_no_method_witness :
  let d := [(str "params", PDict [])] in
  let w := sample [client1] [] [Json.dumps (PDict d)] in
  process_printer_events w = (Raise KeyError, with_FROM_PRINTER [] w).
Proof.
  intros d w.
  apply (process_printer_events_no_method w (Json.dumps (PDict d)) [] d
           eq_refl); [vm_compute; reflexivity | reflexivity].
Defined.

(** Witness of [process_printer_events_log_missing_key]: a 'log' event with
    a level and no msg. *)
Lemma process_printer_events_log_missing_key_witness :
  let p := [(str "level", PInt 20)] in
  let d := [(str "method", PStr (str "log")); (str "params", PDict p)] in
  let w := sample [client1] [] [Json.dumps (PDict d)] in
  process_printer_events w = (Raise KeyError, with_FROM_PRINTER [] w).
Proof.
  intros p d w.
  apply (process_printer_events_log_missing_key w (Json.dumps (PDict d)) []
           d eq_refl); [vm_compute; reflexivity | reflexivity |].
  right; exists p; split; [reflexivity | right; reflexivity].
Defined.

(** Witness of [process_printer_events_log_bad_level]: a level given by
    name. *)
Lemma process_printer_events_log_bad_level_witness :
  let p := [(str "level", PStr (str "INFO")); (str "msg", PStr (str "hi"))] in
  let d := [(str "method", PStr (str "log")); (str "params", PDict p)] in
  let w := sample [client1] [] [Json.dumps (PDict d)] in
  process_printer_events w
  = (Ok tt, with_LOGGER [exception_record TypeError] (with_FROM_PRINTER [] w)).
Proof.
  intros p d w.
  apply (process_printer_events_log_bad_level w (Json.dumps (PDict d)) [] d p
           (PStr (str "INFO")) (PStr (str "hi")) eq_refl);
    [vm_compute; reflexivity | reflexivity ..].
Defined.

(** Witness of [process_printer_events_malformed_is_broadcast]: a 'state'
    event with empty params, two sessions. *)
Lemma process_printer_events_malformed_is_broadcast_witness :
  let d := [(str "method", PStr (str "state")); (str "params", PDict [])] in
  let w := sample [client1; client2] [] [Json.dumps (PDict d)] in
  process_printer_events w
  = (Ok tt,
     with_LOGGER [malformed (PDict d)]
       (with_SENT [(client1, PDict d); (client2, PDict d)]
          (with_FROM_PRINTER [] w))).
Proof.
  intros d w.
  apply (process_printer_events_malformed_is_broadcast w
           (Json.dumps (PDict d)) [] d eq_refl);
    [vm_compute; reflexivity | | intros h Hin; reflexivity].
  left; exists []; repeat split; reflexivity.
Defined.

(** Witness of [process_printer_events_decode_error]: a line of the
    firmware. *)
Lemma process_printer_events_decode_error_witness :
  let item := PStr (str "echo:busy") in
  let w := sample [client1] [] [item] in
  process_printer_events w = (Raise ValueError, with_FROM_PRINTER [] w).
Proof.
  intros item w.
  apply (process_printer_events_decode_error w item [] eq_refl).
  vm_compute; reflexivity.
Defined.

(** Witness of [on_close_removes_session]: the second of three sessions. *)
Lemma on_close_removes_session_witness :
  let client3 := {| hid := 3; remote_ip := str "10.0.0.1" |} in
  let w := sample [client1; client2; client3] [] [] in
  on_close client2 w
  = (Ok tt, with_CLIENTS [client1; client3]
              (with_LOGGER [closed_record client2] w)).
Proof.
  intros client3 w.
  apply (on_close_removes_session client2 [client1] [client3] w eq_refl).
  intros [H | []]; discriminate H.
Defined.

(** Witness of [open_registers_and_greets]: a second session joins. *)
Lemma open_registers_and_greets_witness :
  let w := sample [client1] [] [] in
  WebSocketHandler.open (encoder := SpecEncoder) client2 w
  = (Ok tt,
     with_SENT [(client2,
                 Json.dumps (PDict [(str "cmd", PStr (str "STATE"));
                                    (str "new", PStr (str "disconnected"))]))]
       (with_CLIENTS [client1; client2]
          (with_LOGGER [opened_record client2] w))).
Proof.
  intros w.
  apply (open_registers_and_greets (encoder := SpecEncoder) client2 w
           eq_refl).
Defined.

(** Witness of [open_on_closed_connection]. *)
Lemma open_on_closed_connection_witness :
  let w := sample [client1] [client2] [] in
  WebSocketHandler.open (encoder := SpecEncoder) client2 w
  = (Raise WebSocketClosedError,
     with_CLIENTS [client1; client2] (with_LOGGER [opened_record client2] w)).
Proof.
  intros w.
  apply (open_on_closed_connection (encoder := SpecEncoder) client2 w
           eq_refl).
Defined.

(** Witness of [open_then_on_close]. *)
Lemma open_then_on_close_witness :
  let w := sample [client1] [] [] in
  let w1 := snd (WebSocketHandler.open (encoder := SpecEncoder) client2 w) in
  fst (on_close client2 w1) = Ok tt
  /\ CLIENTS (snd (on_close client2 w1)) = [client1].
Proof.
  intros w.
  apply (open_then_on_close (encoder := SpecEncoder) client2 w).
  intros [H | []]; discriminate H.
Defined.

(** Witness of [broadcast_message_recipients]. *)
Lemma broadcast_message_recipients_witness :
  let message := event_of "zchange" [] in
  let w := sample [client1; client2] [] [] in
  In (client2, message) (SENT (snd (broadcast_message message w)))
  /\ (In (client2, message) (SENT w)
      \/ (message = message /\ In client2 (CLIENTS w)
          /\ is_closed client2 w = false)).
Proof.
  intros message w.
  assert (Hin : In (client2, message)
                   (SENT (snd (broadcast_message message w))))
    by (right; left; reflexivity).
  split; [exact Hin |].
  apply (broadcast_message_recipients message w client2 message Hin).
Defined.

(** Witness of [on_close_ends_delivery]: a 'temp' event after the first of
    two sessions has left. *)
Lemma on_close_ends_delivery_witness :
  let event := event_of "temp" [(str "bed", PInt 60)] in
  let w := sample [client1; client2] [] [Json.dumps event] in
  let w1 := snd (on_close client1 w) in
  In (client2, event) (SENT (snd (process_printer_events w1)))
  /\ (In (client1, event) (SENT (snd (process_printer_events w1))) ->
      In (client1, event) (SENT w)).
Proof.
  intros event w w1; split; [vm_compute; left; reflexivity |].
  apply (on_close_ends_delivery client1 [] [client2] w eq_refl).
  - intros [].
  - intros [H | []]; discriminate H.
Defined.

(** Witness of [open_then_broadcast_message]. *)
Lemma open_then_broadcast_message_witness :
  let message := event_of "zchange" [] in
  let w := sample [client1] [] [] in
  let w1 := snd (WebSocketHandler.open (encoder := SpecEncoder) client2 w) in
  SENT (snd (broadcast_message message w1))
  = [(client2, Json.dumps (PDict [(str "cmd", PStr (str "STATE"));
                                  (str "new", PStr (str "disconnected"))]));
     (client1, message); (client2, message)].
Proof.
  intros message w.
  apply (proj2 (open_then_broadcast_message (encoder := SpecEncoder) client2
                  message w eq_refl
                  (fun h Hin => eq_refl))).
Defined.

(** *** The status page *)

Section StatusExtras.
Context {printer : PrinterState} {encoder : StateEncoder}.

(** X20: the status page shows the cache as the last event left it.  Right
    after a 'temp' event (a 'progress' event) has been handled, [get]
    writes one chunk, the JSON text of the dict with the cached state, the
    params of that event as temp (as progress) and the other field as it
    was, under the content type application/json; [get] changes no
    global. *)
Theorem get_after_process_event (d : list (pystr * pyval)) (p : pyval)
        (w : world) :
  dict_get (str "params") d = Some p ->
  let w1 := snd (process_event (PDict d) w) in
  snd (StatusHandler.get w1) = w1
  /\ (dict_get (str "method") d = Some (PStr (str "temp")) ->
      fst (StatusHandler.get w1)
      = Ok {| StatusHandler.chunks :=
                [Json.dumps
                   (PDict [(str "state", State_json (state (PRINTER w)));
                           (str "temp", p);
                           (str "progress", progress (PRINTER w))])];
              StatusHandler.headers :=
                [(str "Content-Type", str "application/json")] |})
  /\ (dict_get (str "method") d = Some (PStr (str "progress")) ->
      fst (StatusHandler.get w1)
      = Ok {| StatusHandler.chunks :=
                [Json.dumps
                   (PDict [(str "state", State_json (state (PRINTER w)));
                           (str "temp", temp (PRINTER w));
                           (str "progress", p)])];
              StatusHandler.headers :=
                [(str "Content-Type", str "application/json")] |}).
Proof.
  intros Hp w1; split; [reflexivity | split; intros Hm; unfold w1].
  - rewrite (process_event_temp d _ p w Hm eq_refl eq_refl Hp); reflexivity.
  - rewrite (process_event_progress d _ p w Hm eq_refl eq_refl eq_refl Hp).
    reflexivity.
Qed.

End StatusExtras.

(** Witness of [get_after_process_event]: the bed at 60 degrees. *)
Lemma get_after_process_event_witness :
  let p := PDict [(str "bed", PInt 60)] in
  let d := [(str "method", PStr (str "temp")); (str "params", p)] in
  let w := sample [client1] [] [] in
  fst (StatusHandler.get (encoder := SpecEncoder)
         (snd (process_event (PDict d) w)))
  = Ok {| StatusHandler.chunks :=
            [Json.dumps
               (PDict [(str "state", PStr (str "disconnected"));
                       (str "temp", p);
                       (str "progress", progress (PRINTER w))])];
          StatusHandler.headers :=
            [(str "Content-Type", str "application/json")] |}.
Proof.
  intros p d w.
  apply (proj1 (proj2 (get_after_process_event (encoder := SpecEncoder)
                         d p w eq_refl)) eq_refl).
Defined.
